(** * The catalog views of the local library (catalog/views.py)

    A shallow embedding of the view layer: the records the views query, the
    request and response values, the guards put in front of the views by
    Django's decorators and mixins, and the views themselves, written in a
    small state-and-exception monad over the persistent store, the session of
    the requesting client, the clock and a log of the queries sent to the
    store. *)

From stdpp Require Import base option list sorting strings gmap.

Local Open Scope string_scope.
Local Open Scope Z_scope.

(** ** Data model *)

(** A [datetime.date] is its proleptic Gregorian ordinal ([date.toordinal()]):
    [date.min] is day 1 and [date.max], 9999-12-31, is day 3652059. *)
Definition Date : Type := Z.
Definition date_min : Date := 1.
Definition date_max : Date := 3652059.

(** A primary key of a row, a user id. *)
Definition Pk : Type := Z.

(** Modelled from the spec: the records of catalog/models.py, which is not
    part of the sources at hand. The fields are the ones the spec's data model
    lists and the views name: [genre] is the many-to-many relation of a Book
    (the Genre keys of its rows in the relation's table), [status] is the
    one-letter code the views compare with ('a' available, 'o' on loan),
    [due_back] and [borrower] may be NULL. *)
Record Genre := mkGenre { genre_pk : Pk; genre_name : string }.

Record Author := mkAuthor {
  author_pk : Pk;
  first_name : string;
  last_name : string;
  date_of_birth : option Date;
  date_of_death : option Date }.

Record Book := mkBook {
  book_pk : Pk;
  title : string;
  author : option Pk;
  summary : string;
  genre : list Pk;
  language : option Pk }.

Record BookInstance := mkBookInstance {
  inst_pk : Pk;
  book : option Pk;
  status : string;
  due_back : option Date;
  borrower : option Pk }.

#[global] Instance Genre_eq_dec : EqDecision Genre.
Proof. solve_decision. Defined.
#[global] Instance Author_eq_dec : EqDecision Author.
Proof. solve_decision. Defined.
#[global] Instance Book_eq_dec : EqDecision Book.
Proof. solve_decision. Defined.
#[global] Instance BookInstance_eq_dec : EqDecision BookInstance.
Proof. solve_decision. Defined.

(** The persistent store: one table per model, its rows in the store's
    default order, and how the store's ORDER BY ... ASC places NULL: before
    every value (SQLite, MySQL) or after every value (PostgreSQL, Oracle). *)
Record Store := mkStore {
  Book_table : list Book;
  BookInstance_table : list BookInstance;
  Author_table : list Author;
  Genre_table : list Genre;
  nulls_first : bool }.

Inductive Model := MBook | MBookInstance | MAuthor | MGenre.

(** What is sent to the store: a SELECT over a model's table, an UPDATE of
    the row with a key, an INSERT of a row with a key. *)
Inductive Query :=
| Select (m : Model)
| Update (m : Model) (pk : Pk)
| Insert (m : Model) (pk : Pk).

(** [request.session]: a dictionary from names to integers. *)
Abbreviation Session := (gmap string Z).

(** What a view can reach besides its request: the store, the session of the
    requesting client, today's date, and the queries executed so far (the
    most recent last). *)
Record State := mkState {
  db : Store;
  session : Session;
  clock : Date;
  queries : list Query }.

(** ** Requests and responses *)

(** [request.user]: the anonymous user, or a logged-in user with the
    permissions [has_perm] grants. *)
Inductive User :=
| AnonymousUser
| AuthUser (id : Pk) (perms : list string).

Definition is_authenticated (u : User) : bool :=
  match u with AnonymousUser => false | AuthUser _ _ => true end.

Definition has_perm (u : User) (perm : string) : bool :=
  match u with
  | AnonymousUser => false
  | AuthUser _ perms => bool_decide (perm ∈ perms)
  end.

(** The [page] parameter of a list view, as [paginate_queryset] reads it:
    absent, a string [int()] accepts, the word 'last', or anything else. *)
Inductive PageParam :=
| PageAbsent
| PageInt (n : Z)
| PageLast
| PageOther (s : string).

(** The submitted form fields, in order. *)
Definition QueryDict : Type := list (string * string).

Record Request := mkRequest {
  method : string;
  user : User;
  POST : QueryDict;
  GET_page : PageParam }.

(** [RenewBookForm]: unbound with an initial renewal date, or bound to
    submitted data. *)
Inductive RenewBookForm :=
| FormInitial (renewal_date : Date)
| FormBound (data : QueryDict).

(** The context dictionary of the home page. *)
Record IndexContext := mkIndexContext {
  num_books : Z;
  num_instances : Z;
  num_instances_available : Z;
  num_authors : Z;
  num_genres : Z;
  books_containing_genre : Z;
  num_visits : Z }.

Inductive Context :=
| CtxIndex (c : IndexContext)
| CtxBookList (book_list : list Book)
| CtxAuthorList (author_list : list Author)
| CtxBookInstanceList (bookinstance_list : list BookInstance)
| CtxRenew (form : RenewBookForm) (bookinst : BookInstance)
| CtxBookForm (data : QueryDict).

Inductive Response :=
| Render (template : string) (ctx : Context)
| HttpResponseRedirect (url_name : string)
| RedirectToObject (m : Model) (pk : Pk)
| RedirectToLogin
| Forbidden
| NotFound
| ServerError.

(** ** The monad of the views *)

Inductive Exn :=
| Http404
| PermissionDenied
| OverflowError
| TypeError
| MultipleObjectsReturned.

(** A computation reads and writes the state and ends with a value or an
    exception; what was written before an exception stays written (requests
    are not wrapped in a transaction). *)
Definition M (A : Type) : Type := State → (Exn + A) * State.

#[global] Instance M_ret : MRet M := λ A (a : A) s, (inr a, s).
#[global] Instance M_bind : MBind M := λ A B (f : A → M B) (c : M A) s,
  match c s with
  | (inl e, s') => (inl e, s')
  | (inr a, s') => f a s'
  end.

Definition raise {A} (e : Exn) : M A := λ s, (inl e, s).
Definition get_state : M State := λ s, (inr s, s).

(** The handler around a view: an exception becomes its error response. *)
Definition respond (v : M Response) (s : State) : Response * State :=
  match v s with
  | (inr r, s') => (r, s')
  | (inl Http404, s') => (NotFound, s')
  | (inl PermissionDenied, s') => (Forbidden, s')
  | (inl _, s') => (ServerError, s')
  end.

(** ** The object-relational mapping *)

Definition execute (q : Query) : M unit := λ s,
  (inr tt, mkState (db s) (session s) (clock s) (queries s ++ [q])).

(** [Model.objects.all()], evaluated: the rows of the table. *)
Definition Book_objects : M (list Book) :=
  execute (Select MBook);; s ← get_state; mret (Book_table (db s)).
Definition BookInstance_objects : M (list BookInstance) :=
  execute (Select MBookInstance);; s ← get_state; mret (BookInstance_table (db s)).
Definition Author_objects : M (list Author) :=
  execute (Select MAuthor);; s ← get_state; mret (Author_table (db s)).
Definition Genre_objects : M (list Genre) :=
  execute (Select MGenre);; s ← get_state; mret (Genre_table (db s)).

(** [.count()] *)
Definition count {A} (rows : list A) : Z := Z.of_nat (length rows).

(** Lower case of an ASCII letter; every other byte is kept. *)
Definition lower_ascii (c : Ascii.ascii) : Ascii.ascii :=
  let n := Ascii.N_of_ascii c in
  if ((65 <=? n) && (n <=? 90))%N then Ascii.ascii_of_N (n + 32) else c.

Fixpoint lower (s : string) : string :=
  match s with
  | EmptyString => EmptyString
  | String c s' => String (lower_ascii c) (lower s')
  end.

(** [needle in hay] *)
Fixpoint contains (needle hay : string) : bool :=
  String.prefix needle hay ||
  match hay with
  | EmptyString => false
  | String _ hay' => contains needle hay'
  end.

(** The lookup [icontains]: a substring match that ignores the case of ASCII
    letters. *)
Definition icontains (pattern value : string) : bool :=
  contains (lower pattern) (lower value).

(** [.filter(status__exact=code)] *)
Definition filter_status (code : string) (rows : list BookInstance) : list BookInstance :=
  filter (λ bi, status bi = code) rows.

(** [.filter(borrower=user)] *)
Definition filter_borrower (uid : Pk) (rows : list BookInstance) : list BookInstance :=
  filter (λ bi, borrower bi = Some uid) rows.

(** The genres a Book is related to: the inner join of the Book's rows in the
    relation's table with the Genre table. *)
Definition genres_of (genres : list Genre) (b : Book) : list Genre :=
  g_pk ← genre b; filter (λ g, genre_pk g = g_pk) genres.

(** [Book.objects.filter(genre__name__icontains=pattern)]: the lookup spans the
    many-to-many relation, so the query joins Book with the relation and with
    Genre and keeps the joined rows whose genre name matches; no DISTINCT is
    applied, so a Book is in the result once for each of its matching
    genres. *)
Definition Book_filter_genre_name_icontains (pattern : string) : M (list Book) :=
  execute (Select MBook);;
  s ← get_state;
  mret (b ← Book_table (db s);
        g ← genres_of (Genre_table (db s)) b;
        if icontains pattern (genre_name g) then [b] else []).

(** ** The home page *)

(** [request.session.get(key, dflt)] *)
Definition session_get (key : string) (dflt : Z) : M Z :=
  s ← get_state; mret (default dflt (session s !! key)).

(** [request.session[key] = value] *)
Definition session_set (key : string) (value : Z) : M unit := λ s,
  (inr tt, mkState (db s) (<[key := value]> (session s)) (clock s) (queries s)).

Definition index (request : Request) : M Response :=
  books ← Book_objects;
  let num_books := count books in
  instances ← BookInstance_objects;
  let num_instances := count instances in
  instances ← BookInstance_objects;
  let num_instances_available := count (filter_status "a" instances) in
  authors ← Author_objects;
  let num_authors := count authors in
  genres ← Genre_objects;
  let num_genres := count genres in
  poems ← Book_filter_genre_name_icontains "poem";
  let books_containing_genre := count poems in
  num_visits ← session_get "num_visits" 0;
  session_set "num_visits" (num_visits + 1);;
  mret (Render "index.html"
          (CtxIndex (mkIndexContext num_books num_instances num_instances_available
                       num_authors num_genres books_containing_genre num_visits))).


(** ** Access control *)

(** [AccessMixin.handle_no_permission] (Django 2.1 and later), with
    [raise_exception] left at False: a logged-in user gets PermissionDenied,
    an anonymous one is sent to the login page. *)
Definition handle_no_permission (request : Request) : M Response :=
  if is_authenticated (user request) then raise PermissionDenied
  else mret RedirectToLogin.

(** [LoginRequiredMixin.dispatch] *)
Definition LoginRequiredMixin (request : Request) (dispatch : M Response) : M Response :=
  if is_authenticated (user request) then dispatch
  else handle_no_permission request.

(** [PermissionRequiredMixin.dispatch] *)
Definition PermissionRequiredMixin (perm : string) (request : Request)
    (dispatch : M Response) : M Response :=
  if has_perm (user request) perm then dispatch
  else handle_no_permission request.

(** The decorator [@permission_required(perm)], [raise_exception] left at
    False: whoever fails the test, logged in or not, is sent to the login
    page. *)
Definition permission_required (perm : string) (view : Request → Pk → M Response)
    (request : Request) (pk : Pk) : M Response :=
  if has_perm (user request) perm then view request pk
  else mret RedirectToLogin.

(** ** Pagination *)

(** [object_list[bottom:top]] for [0 <= bottom]. *)
Definition slice {A} (object_list : list A) (bottom top : Z) : list A :=
  take (Z.to_nat (top - bottom)) (drop (Z.to_nat bottom) object_list).

(** [Paginator.num_pages], with no orphans and an empty first page allowed:
    [ceil(max(1, count) / per_page)]. *)
Definition num_pages (n per_page : Z) : Z :=
  let hits := Z.max 1 n in
  (hits + per_page - 1) / per_page.

(** [Paginator.validate_number]; EmptyPage is an InvalidPage, which
    [paginate_queryset] turns into Http404. *)
Definition validate_number (number n per_page : Z) : M Z :=
  if number <? 1 then raise Http404
  else if number >? num_pages n per_page then
    if number =? 1 then mret number else raise Http404
  else mret number.

(** [Paginator.page(number).object_list] *)
Definition page {A} (object_list : list A) (number per_page : Z) : M (list A) :=
  number ← validate_number number (count object_list) per_page;
  let bottom := (number - 1) * per_page in
  let top := bottom + per_page in
  let top := if top + 0 >=? count object_list then count object_list else top in
  mret (slice object_list bottom top).

(** [MultipleObjectMixin.paginate_queryset] *)
Definition paginate_queryset {A} (queryset : list A) (page_size : Z)
    (request : Request) : M (list A) :=
  page_number ←
    match GET_page request with
    | PageAbsent => mret 1
    | PageInt n => mret n
    | PageLast => mret (num_pages (count queryset) page_size)
    | PageOther _ => raise Http404
    end;
  page queryset page_number page_size.

Definition paginate_by : Z := 10.

(** ** List views *)

Definition BookListView (request : Request) : M Response :=
  queryset ← Book_objects;
  book_list ← paginate_queryset queryset paginate_by request;
  mret (Render "catalog/book_list.html" (CtxBookList book_list)).

Definition AuthorListView (request : Request) : M Response :=
  queryset ← Author_objects;
  author_list ← paginate_queryset queryset paginate_by request;
  mret (Render "catalog/author_list.html" (CtxAuthorList author_list)).

(** The order of [ORDER BY due_back ASC] on two keys. *)
Definition due_back_le (nulls_first : bool) (a b : option Date) : bool :=
  match a, b with
  | None, None => true
  | None, Some _ => nulls_first
  | Some _, None => negb nulls_first
  | Some x, Some y => x <=? y
  end.

Fixpoint insert_by_due_back (nf : bool) (x : BookInstance) (rows : list BookInstance)
    : list BookInstance :=
  match rows with
  | [] => [x]
  | y :: rows' =>
      if due_back_le nf (due_back x) (due_back y) then x :: y :: rows'
      else y :: insert_by_due_back nf x rows'
  end.

(** [.order_by('due_back')]: rows with the same key stay in the order they
    had (the store promises no order among them). *)
Definition order_by_due_back (nf : bool) (rows : list BookInstance) : list BookInstance :=
  foldr (insert_by_due_back nf) [] rows.

(** [LoanedBooksByUserListView.get_queryset]; a filter on [borrower] with the
    anonymous user in place of a user raises TypeError. *)
Definition LoanedBooksByUser_get_queryset (request : Request) : M (list BookInstance) :=
  match user request with
  | AuthUser uid _ =>
      rows ← BookInstance_objects;
      s ← get_state;
      mret (order_by_due_back (nulls_first (db s))
              (filter_status "o" (filter_borrower uid rows)))
  | AnonymousUser => raise TypeError
  end.

Definition LoanedBooksByUserListView (request : Request) : M Response :=
  LoginRequiredMixin request (
    queryset ← LoanedBooksByUser_get_queryset request;
    bookinstance_list ← paginate_queryset queryset paginate_by request;
    mret (Render "catalog/bookinstance_list_borrowed_user.html"
            (CtxBookInstanceList bookinstance_list))).

(** [AllBorrowedBooksByUserListView.get_queryset] *)
Definition AllBorrowedBooksByUser_get_queryset : M (list BookInstance) :=
  rows ← BookInstance_objects;
  s ← get_state;
  mret (order_by_due_back (nulls_first (db s)) (filter_status "o" rows)).

Definition AllBorrowedBooksByUserListView (request : Request) : M Response :=
  PermissionRequiredMixin "catalog.can_mark_returned" request (
    queryset ← AllBorrowedBooksByUser_get_queryset;
    bookinstance_list ← paginate_queryset queryset paginate_by request;
    mret (Render "catalog/all_bookinstance_list_borrowed_user.html"
            (CtxBookInstanceList bookinstance_list))).

(** ** The renewal workflow *)

(** [datetime.date.today()] *)
Definition date_today : M Date := s ← get_state; mret (clock s).

(** [datetime.timedelta(weeks=w)], in days. *)
Definition timedelta_weeks (w : Z) : Z := 7 * w.

(** [date + timedelta]: OverflowError outside [date.min .. date.max]. *)
Definition date_add (d : Date) (days : Z) : M Date :=
  if (date_min <=? d + days) && (d + days <=? date_max) then mret (d + days)
  else raise OverflowError.

(** [get_object_or_404(BookInstance, pk=pk)] *)
Definition get_BookInstance_or_404 (pk : Pk) : M BookInstance :=
  rows ← BookInstance_objects;
  match filter (λ bi, inst_pk bi = pk) rows with
  | [] => raise Http404
  | [bi] => mret bi
  | _ => raise MultipleObjectsReturned
  end.

Definition set_due_back (d : option Date) (bi : BookInstance) : BookInstance :=
  mkBookInstance (inst_pk bi) (book bi) (status bi) d (borrower bi).

Definition set_BookInstance_table (rows : list BookInstance) (st : Store) : Store :=
  mkStore (Book_table st) rows (Author_table st) (Genre_table st) (nulls_first st).

Definition set_Book_table (rows : list Book) (st : Store) : Store :=
  mkStore rows (BookInstance_table st) (Author_table st) (Genre_table st) (nulls_first st).

Definition set_db (st : Store) : M unit := λ s,
  (inr tt, mkState st (session s) (clock s) (queries s)).

(** [book_inst.save()] on an object read from the store: every column of the
    row with the object's key is written from the object. *)
Definition BookInstance_save (obj : BookInstance) : M unit :=
  execute (Update MBookInstance (inst_pk obj));;
  s ← get_state;
  set_db (set_BookInstance_table
            ((λ row, if decide (inst_pk row = inst_pk obj) then obj else row)
               <$> BookInstance_table (db s))
            (db s)).

Section Renewal.

(** Modelled from the spec: [RenewBookForm] of catalog/forms.py, which is not
    part of the sources at hand. Bound to submitted data on a given day, the
    form is valid or not by rules of its own; [RenewBookForm_clean today
    data] is [Some d] when [is_valid()] holds, [d] being
    [cleaned_data['renewal_date']], and [None] when validation fails. *)
Variable RenewBookForm_clean : Date → QueryDict → option Date.

Definition renew_book_librarian_view (request : Request) (pk : Pk) : M Response :=
  book_inst ← get_BookInstance_or_404 pk;
  if String.eqb (method request) "POST" then
    let form := FormBound (POST request) in
    today ← date_today;
    match RenewBookForm_clean today (POST request) with
    | Some renewal_date =>
        BookInstance_save (set_due_back (Some renewal_date) book_inst);;
        mret (HttpResponseRedirect "all-borrowed-books")
    | None =>
        mret (Render "catalog/book_renew_librarian.html" (CtxRenew form book_inst))
    end
  else
    today ← date_today;
    proposed_renewal_date ← date_add today (timedelta_weeks 3);
    let form := FormInitial proposed_renewal_date in
    mret (Render "catalog/book_renew_librarian.html" (CtxRenew form book_inst)).

Definition renew_book_librarian : Request → Pk → M Response :=
  permission_required "catalog.can_mark_returned" renew_book_librarian_view.

End Renewal.

(** ** Creating and updating a Book *)

(** Modelled from the spec: the editable fields of the Book model of
    catalog/models.py, in the order the spec's data model and the views name
    them. *)
Inductive BookField := FTitle | FAuthor | FSummary | FGenre | FLanguage.

#[global] Instance BookField_eq_dec : EqDecision BookField.
Proof. solve_decision. Defined.

Definition Book_fields : list BookField := [FTitle; FAuthor; FSummary; FGenre; FLanguage].

(** The [fields] attribute of an edit view: ['__all__'] or a list of names. *)
Inductive FieldsOption :=
| ALL_FIELDS
| Fields (names : list BookField).

Definition BookCreate_fields : FieldsOption := ALL_FIELDS.
Definition BookUpdate_fields : FieldsOption := Fields [FSummary; FGenre; FLanguage].

(** The fields of the model form an edit view builds. *)
Definition form_fields (o : FieldsOption) : list BookField :=
  match o with
  | ALL_FIELDS => Book_fields
  | Fields names => names
  end.

(** [f.save_form_data(instance, cleaned_data[f.name])] *)
Definition save_form_data (f : BookField) (cleaned : Book) (instance : Book) : Book :=
  match f with
  | FTitle => mkBook (book_pk instance) (title cleaned) (author instance)
                (summary instance) (genre instance) (language instance)
  | FAuthor => mkBook (book_pk instance) (title instance) (author cleaned)
                 (summary instance) (genre instance) (language instance)
  | FSummary => mkBook (book_pk instance) (title instance) (author instance)
                  (summary cleaned) (genre instance) (language instance)
  | FGenre => mkBook (book_pk instance) (title instance) (author instance)
                (summary instance) (genre cleaned) (language instance)
  | FLanguage => mkBook (book_pk instance) (title instance) (author instance)
                   (summary instance) (genre instance) (language cleaned)
  end.

(** [construct_instance(form, instance, fields)]: each model field that is a
    field of the form is written to the instance, every other one is left as
    it is. *)
Definition construct_instance (fields : list BookField) (cleaned : Book)
    (instance : Book) : Book :=
  foldl (λ inst f, if decide (f ∈ fields) then save_form_data f cleaned inst else inst)
    instance Book_fields.

(** [Book()]: a new object, not yet in the store. *)
Definition Book_blank (pk : Pk) : Book := mkBook pk "" None "" [] None.

(** The key the store gives to a new row. *)
Definition next_pk (rows : list Book) : Pk := 1 + foldr Z.max 0 (book_pk <$> rows).

Definition get_Book_or_404 (pk : Pk) : M Book :=
  rows ← Book_objects;
  match filter (λ b, book_pk b = pk) rows with
  | [] => raise Http404
  | [b] => mret b
  | _ => raise MultipleObjectsReturned
  end.

Definition Book_save (obj : Book) : M unit :=
  execute (Update MBook (book_pk obj));;
  s ← get_state;
  set_db (set_Book_table
            ((λ row, if decide (book_pk row = book_pk obj) then obj else row)
               <$> Book_table (db s))
            (db s)).

Definition Book_insert (obj : Book) : M unit :=
  execute (Insert MBook (book_pk obj));;
  s ← get_state;
  set_db (set_Book_table (Book_table (db s) ++ [obj]) (db s)).

Section BookEdit.

(** Modelled from the spec: the validation of the model form of Book, which
    follows the declarations of catalog/models.py. For the fields of the
    form and the submitted data, [Some cleaned] when the form is valid,
    [cleaned] holding the cleaned value of each field of the form, and
    [None] when it is not. *)
Variable BookForm_clean : list BookField → QueryDict → option Book.

(** [BookCreate.post] behind the view's permission check. *)
Definition BookCreate_post (request : Request) : M Response :=
  PermissionRequiredMixin "catalog.add_book" request (
    let fields := form_fields BookCreate_fields in
    match BookForm_clean fields (POST request) with
    | Some cleaned =>
        s ← get_state;
        let object := construct_instance fields cleaned
                        (Book_blank (next_pk (Book_table (db s)))) in
        Book_insert object;;
        mret (RedirectToObject MBook (book_pk object))
    | None => mret (Render "catalog/book_form.html" (CtxBookForm (POST request)))
    end).

(** [BookUpdate.post] behind the view's permission check. *)
Definition BookUpdate_post (request : Request) (pk : Pk) : M Response :=
  PermissionRequiredMixin "catalog.change_book" request (
    object ← get_Book_or_404 pk;
    let fields := form_fields BookUpdate_fields in
    match BookForm_clean fields (POST request) with
    | Some cleaned =>
        Book_save (construct_instance fields cleaned object);;
        mret (RedirectToObject MBook pk)
    | None => mret (Render "catalog/book_form.html" (CtxBookForm (POST request)))
    end).

End BookEdit.

(** ** What the claims are measured against *)

(** The Books that have some genre whose name matches, each Book once. *)
Definition books_having_genre (pattern : string) (st : Store) : list Book :=
  filter (λ b, existsb (λ g, icontains pattern (genre_name g))
                 (genres_of (Genre_table st) b) = true)
    (Book_table st).

(** The state after a sequence of requests to the home page, one after the
    other in the same session. *)
Definition visit (s : State) (request : Request) : State :=
  snd (respond (index request) s).

Definition visits (requests : list Request) (s : State) : State :=
  foldl visit s requests.

(** The visit count the home page reports. *)
Definition reported_visits (r : Response) : option Z :=
  match r with
  | Render _ (CtxIndex c) => Some (num_visits c)
  | _ => None
  end.

(** The order of the loan lists: [x] may stand before [y]. *)
Definition due_back_order (nf : bool) (x y : BookInstance) : Prop :=
  due_back_le nf (due_back x) (due_back y) = true.

(** The page number a request asks for, out of a result of [n] rows. *)
Definition page_number_of (p : PageParam) (n : Z) : option Z :=
  match p with
  | PageAbsent => Some 1
  | PageInt number => Some number
  | PageLast => Some (num_pages n paginate_by)
  | PageOther _ => None
  end.

(** [pg] is page [N] of [full]: at most 10 rows, the rows of [full] at the
    positions from [10 (N - 1)] up to, not including, [10 N]. *)
Definition is_page_of {A} (full : list A) (N : Z) (pg : list A) : Prop :=
  (length pg ≤ 10)%nat ∧
  ∀ i : nat, pg !! i =
    if decide (i < 10)%nat then full !! (Z.to_nat (10 * (N - 1)) + i)%nat else None.

(** A list view over the ordered result [full] answers a request with the
    page asked for when there is such a page, and with "not found" when there
    is none. *)
Definition serves_pages {A} (full : list A) (render : list A → Response)
    (request : Request) (response : Response) : Prop :=
  match page_number_of (GET_page request) (count full) with
  | Some N =>
      if decide (1 <= N <= num_pages (count full) paginate_by)
      then ∃ pg, response = render pg ∧ is_page_of full N pg
      else response = NotFound
  | None => response = NotFound
  end.

(** The same request with another method. *)
Definition with_method (m : string) (request : Request) : Request :=
  mkRequest m (user request) (POST request) (GET_page request).

(** ** Sample data *)

Definition anonymous_get : Request := mkRequest "GET" AnonymousUser [] PageAbsent.

(** A store with one Book of two genres, both of them poetry. *)
Definition poem_store : Store :=
  mkStore [mkBook 1 "Odes" None "" [1; 2] None] [] []
    [mkGenre 1 "Poem"; mkGenre 2 "Epic poems"] true.

Definition poem_state : State := mkState poem_store ∅ 738000 [].

(** A librarian (user 7) and a member without permissions (user 8). *)
Definition librarian : User := AuthUser 7 ["catalog.can_mark_returned"].
Definition member : User := AuthUser 8 [].

Definition librarian_get : Request := mkRequest "GET" librarian [] (PageInt 1).
Definition member_get : Request := mkRequest "GET" member [] PageAbsent.

(** A store with four copies of one Book, three of them on loan. *)
Definition loans_store : Store :=
  mkStore [mkBook 1 "Odes" (Some 1) "Poems" [1] None]
    [mkBookInstance 1 (Some 1) "o" (Some 738020) (Some 7);
     mkBookInstance 2 (Some 1) "a" None None;
     mkBookInstance 3 (Some 1) "o" (Some 738010) (Some 7);
     mkBookInstance 4 (Some 1) "o" (Some 738015) (Some 8)]
    [mkAuthor 1 "John" "Keats" None None]
    [mkGenre 1 "Poem"] true.

Definition loans_state : State := mkState loans_store ∅ 738000 [].

Definition member_post : Request :=
  mkRequest "POST" member [("renewal_date", "2021-08-01")] PageAbsent.
Definition librarian_post : Request :=
  mkRequest "POST" librarian [("renewal_date", "2021-08-01")] PageAbsent.
Definition librarian_put : Request :=
  mkRequest "PUT" librarian [("renewal_date", "2021-08-01")] PageAbsent.

(** A renewal form that accepts the one date 2021-08-01 (day 738003) while
    it is at most four weeks ahead, and nothing else. *)
Definition sample_RenewBookForm_clean (today : Date) (data : QueryDict) : option Date :=
  if decide (data = [("renewal_date", "2021-08-01")]) then
    if (today <=? 738003) && (738003 <=? today + 28) then Some 738003 else None
  else None.

(** A cataloguer (user 9), who may add and change Books. *)
Definition cataloguer : User := AuthUser 9 ["catalog.add_book"; "catalog.change_book"].

Definition cataloguer_post : Request :=
  mkRequest "POST" cataloguer
    [("title", "Dune"); ("author", "1"); ("summary", "Sand"); ("genre", "1")] PageAbsent.

(** A Book form that accepts every submission and cleans it to the values
    [cataloguer_post] submits. *)
Definition sample_BookForm_clean (fields : list BookField) (data : QueryDict) : option Book :=
  Some (mkBook 0 "Dune" (Some 1) "Sand" [1] None).

(** ** Single-object views *)

(** The fields of Author that [AuthorUpdate] names. *)
Inductive AuthorField := FFirstName | FLastName | FDateOfBirth | FDateOfDeath.

#[global] Instance AuthorField_eq_dec : EqDecision AuthorField.
Proof. solve_decision. Defined.

(** Modelled from the spec: the editable fields of the Author model of
    catalog/models.py (the name fields, the date of birth, the date of
    death). *)
Definition Author_fields : list AuthorField :=
  [FFirstName; FLastName; FDateOfBirth; FDateOfDeath].

Inductive AuthorFieldsOption :=
| AUTHOR_ALL_FIELDS
| AuthorFields (names : list AuthorField).

Definition AuthorCreate_fields : AuthorFieldsOption := AUTHOR_ALL_FIELDS.
Definition AuthorUpdate_fields : AuthorFieldsOption :=
  AuthorFields [FFirstName; FLastName; FDateOfBirth; FDateOfDeath].

(** [AuthorCreate.initial] *)
Definition AuthorCreate_initial : list (AuthorField * string) :=
  [(FDateOfDeath, "12/10/2016")].

Definition Author_form_fields (o : AuthorFieldsOption) : list AuthorField :=
  match o with
  | AUTHOR_ALL_FIELDS => Author_fields
  | AuthorFields names => names
  end.

(** What the single-object views put in their context: the object of a detail
    view, or the form of an Author edit view with the object it edits (none
    when creating), the initial values the view declares and the submitted
    data (none when the form is unbound). *)
Inductive ObjectContext :=
| CtxBook (book : Book)
| CtxAuthor (author : Author)
| CtxAuthorForm (instance : option Author) (initial : list (AuthorField * string))
    (data : option QueryDict).

(** The answer of a single-object view: a page of its own, or one of the
    responses of the other views. *)
Inductive ObjectResponse :=
| RenderObject (template : string) (ctx : ObjectContext)
| Plain (r : Response).

Definition respond_object (v : M ObjectResponse) (s : State) : ObjectResponse * State :=
  match v s with
  | (inr r, s') => (r, s')
  | (inl e, s') => (Plain (fst (respond (raise e) s')), s')
  end.

(** [PermissionRequiredMixin.dispatch] in front of a single-object view. *)
Definition PermissionRequiredMixin_object (perm : string) (request : Request)
    (dispatch : M ObjectResponse) : M ObjectResponse :=
  if has_perm (user request) perm then dispatch
  else r ← handle_no_permission request; mret (Plain r).

Definition get_Author_or_404 (pk : Pk) : M Author :=
  rows ← Author_objects;
  match filter (λ a, author_pk a = pk) rows with
  | [] => raise Http404
  | [a] => mret a
  | _ => raise MultipleObjectsReturned
  end.

(** [BookDetailView]: the object with the key of the URL, or Http404. *)
Definition BookDetailView (request : Request) (pk : Pk) : M ObjectResponse :=
  object ← get_Book_or_404 pk;
  mret (RenderObject "catalog/book_detail.html" (CtxBook object)).

Definition AuthorDetailView (request : Request) (pk : Pk) : M ObjectResponse :=
  object ← get_Author_or_404 pk;
  mret (RenderObject "catalog/author_detail.html" (CtxAuthor object)).

(** ** Creating and updating an Author *)

Definition Author_save_form_data (f : AuthorField) (cleaned : Author) (instance : Author)
    : Author :=
  match f with
  | FFirstName => mkAuthor (author_pk instance) (first_name cleaned) (last_name instance)
                    (date_of_birth instance) (date_of_death instance)
  | FLastName => mkAuthor (author_pk instance) (first_name instance) (last_name cleaned)
                   (date_of_birth instance) (date_of_death instance)
  | FDateOfBirth => mkAuthor (author_pk instance) (first_name instance) (last_name instance)
                      (date_of_birth cleaned) (date_of_death instance)
  | FDateOfDeath => mkAuthor (author_pk instance) (first_name instance) (last_name instance)
                      (date_of_birth instance) (date_of_death cleaned)
  end.

Definition Author_construct_instance (fields : list AuthorField) (cleaned : Author)
    (instance : Author) : Author :=
  foldl (λ inst f, if decide (f ∈ fields) then Author_save_form_data f cleaned inst else inst)
    instance Author_fields.

(** [Author()]: a new object, not yet in the store. *)
Definition Author_blank (pk : Pk) : Author := mkAuthor pk "" "" None None.

Definition Author_next_pk (rows : list Author) : Pk :=
  1 + foldr Z.max 0 (author_pk <$> rows).

Definition set_Author_table (rows : list Author) (st : Store) : Store :=
  mkStore (Book_table st) (BookInstance_table st) rows (Genre_table st) (nulls_first st).

Definition Author_save (obj : Author) : M unit :=
  execute (Update MAuthor (author_pk obj));;
  s ← get_state;
  set_db (set_Author_table
            ((λ row, if decide (author_pk row = author_pk obj) then obj else row)
               <$> Author_table (db s))
            (db s)).

Definition Author_insert (obj : Author) : M unit :=
  execute (Insert MAuthor (author_pk obj));;
  s ← get_state;
  set_db (set_Author_table (Author_table (db s) ++ [obj]) (db s)).

Section AuthorEdit.

(** Modelled from the spec: the validation of the model form of Author, which
    follows the declarations of catalog/models.py. For the fields of the form
    and the submitted data, [Some cleaned] when the form is valid, [cleaned]
    holding the cleaned value of each field of the form, and [None] when it is
    not. *)
Variable AuthorForm_clean : list AuthorField → QueryDict → option Author.

(** [AuthorCreate.get] behind the view's permission check: the unbound form
    with the initial values of the view. *)
Definition AuthorCreate_get (request : Request) : M ObjectResponse :=
  PermissionRequiredMixin_object "catalog.add_author" request (
    mret (RenderObject "catalog/author_form.html"
            (CtxAuthorForm None AuthorCreate_initial None))).

(** [AuthorCreate.post] behind the view's permission check. *)
Definition AuthorCreate_post (request : Request) : M ObjectResponse :=
  PermissionRequiredMixin_object "catalog.add_author" request (
    let fields := Author_form_fields AuthorCreate_fields in
    match AuthorForm_clean fields (POST request) with
    | Some cleaned =>
        s ← get_state;
        let object := Author_construct_instance fields cleaned
                        (Author_blank (Author_next_pk (Author_table (db s)))) in
        Author_insert object;;
        mret (Plain (RedirectToObject MAuthor (author_pk object)))
    | None =>
        mret (RenderObject "catalog/author_form.html"
                (CtxAuthorForm None AuthorCreate_initial (Some (POST request))))
    end).

(** [AuthorUpdate.get] behind the view's permission check. *)
Definition AuthorUpdate_get (request : Request) (pk : Pk) : M ObjectResponse :=
  PermissionRequiredMixin_object "catalog.change_author" request (
    object ← get_Author_or_404 pk;
    mret (RenderObject "catalog/author_form.html" (CtxAuthorForm (Some object) [] None))).

(** [AuthorUpdate.post] behind the view's permission check. *)
Definition AuthorUpdate_post (request : Request) (pk : Pk) : M ObjectResponse :=
  PermissionRequiredMixin_object "catalog.change_author" request (
    object ← get_Author_or_404 pk;
    let fields := Author_form_fields AuthorUpdate_fields in
    match AuthorForm_clean fields (POST request) with
    | Some cleaned =>
        Author_save (Author_construct_instance fields cleaned object);;
        mret (Plain (RedirectToObject MAuthor pk))
    | None =>
        mret (RenderObject "catalog/author_form.html"
                (CtxAuthorForm (Some object) [] (Some (POST request))))
    end).

End AuthorEdit.

(** ** Further measures and sample data *)

(** The rows of page [N] of [full], none when there is no such page. *)
Definition page_rows {A} (full : list A) (N : Z) (s : State) : list A :=
  match page full N paginate_by s with
  | (inr pg, _) => pg
  | (inl _, _) => []
  end.


(** Two states with the same store, session and clock. *)
Definition same_data (s s' : State) : Prop :=
  db s' = db s ∧ session s' = session s ∧ clock s' = clock s.

(** A store with 25 Books and a copy of each, all on loan to user 8, due one
    day after the other. *)
Definition shelf_store : Store :=
  mkStore
    ((λ k : nat, mkBook (Z.of_nat k) "Book" None "" [] None) <$> seq 1 25)
    ((λ k : nat, mkBookInstance (Z.of_nat k) (Some (Z.of_nat k)) "o"
                   (Some (738000 + Z.of_nat k)) (Some 8)) <$> seq 1 25)
    [] [] true.

Definition shelf_state : State := mkState shelf_store ∅ 738000 [].


(** A user who may add Books and do nothing else, submitting nothing. *)
Definition adder_post : Request :=
  mkRequest "POST" (AuthUser 11 ["catalog.add_book"]) [] PageAbsent.

(** A Book form that accepts nothing. *)
Definition strict_BookForm_clean (fields : list BookField) (data : QueryDict) : option Book :=
  None.

(** A state with nothing in the store. *)
Definition empty_state : State := mkState (mkStore [] [] [] [] false) ∅ 738000 [].

(** A curator (user 10), who may add and change Authors. *)
Definition curator : User := AuthUser 10 ["catalog.add_author"; "catalog.change_author"].

Definition curator_post : Request :=
  mkRequest "POST" curator [("first_name", "Jane"); ("last_name", "Austen")] PageAbsent.

(** An Author form that accepts every submission and cleans it to the values
    [curator_post] submits. *)
Definition sample_AuthorForm_clean (fields : list AuthorField) (data : QueryDict)
    : option Author :=
  Some (mkAuthor 0 "Jane" "Austen" (Some 648000) None).

(** * Theorems *)

(** Runs a computation of [M]: unfolds the monad and the primitives of the
    object-relational mapping, and projects the state records. *)
Ltac run_M :=
  cbv beta iota zeta delta
    [respond mbind mret M_bind M_ret raise get_state execute set_db
     session_get session_set date_today
     Book_objects BookInstance_objects Author_objects Genre_objects
     Book_filter_genre_name_icontains];
  cbn [fst snd db session clock queries].

(** ** The home page *)

(** The home page, for every state: what it renders, and the state it leaves. *)
Lemma index_respond (request : Request) (s : State) :
  respond (index request) s =
    (Render "index.html"
       (CtxIndex (mkIndexContext
          (count (Book_table (db s)))
          (count (BookInstance_table (db s)))
          (count (filter_status "a" (BookInstance_table (db s))))
          (count (Author_table (db s)))
          (count (Genre_table (db s)))
          (count (b ← Book_table (db s);
                  g ← genres_of (Genre_table (db s)) b;
                  if icontains "poem" (genre_name g) then [b] else []))
          (default 0 (session s !! "num_visits")))),
     mkState (db s)
       (<["num_visits" := default 0 (session s !! "num_visits") + 1]> (session s))
       (clock s)
       (queries s ++ [Select MBook] ++ [Select MBookInstance] ++ [Select MBookInstance]
          ++ [Select MAuthor] ++ [Select MGenre] ++ [Select MBook])).
Proof.
  unfold index. run_M. by rewrite <- !(assoc_L (++)).
Qed.

(** X11: the five plain counts of the home page are the sizes of the tables and of
    the set of available copies. *)
Lemma index_plain_counts (request : Request) (s : State) :
  ∃ c, fst (respond (index request) s) = Render "index.html" (CtxIndex c) ∧
    num_books c = Z.of_nat (length (Book_table (db s))) ∧
    num_instances c = Z.of_nat (length (BookInstance_table (db s))) ∧
    num_instances_available c =
      Z.of_nat (length (filter (λ bi, status bi = "a") (BookInstance_table (db s)))) ∧
    num_authors c = Z.of_nat (length (Author_table (db s))) ∧
    num_genres c = Z.of_nat (length (Genre_table (db s))).
Proof. rewrite index_respond. eexists. by repeat split. Qed.


(** C1 (the code departs from it): on a store whose only Book has the two
    genres "Poem" and "Epic poems", the home page reports 2 for the Books of
    a genre containing "poem", although one Book has such a genre; the other
    five counts are the sizes of the tables. *)
Theorem index_counts_book_once_per_matching_genre :
  fst (respond (index anonymous_get) poem_state) =
    Render "index.html" (CtxIndex (mkIndexContext 1 0 0 0 2 2 0)) ∧
  count (books_having_genre "poem" (db poem_state)) = 1.
Proof. split; reflexivity. Qed.

(** C2: in a session without a visit counter the home page reports 0; after
    any sequence of requests in such a session the next request reports the
    number of requests made before it; and every request leaves the counter at
    one more than the value it reports. *)
Theorem index_visit_counter (s : State) (requests : list Request) (request : Request) :
  session s !! "num_visits" = None →
  reported_visits (fst (respond (index request) s)) = Some 0 ∧
  reported_visits (fst (respond (index request) (visits requests s)))
    = Some (Z.of_nat (length requests)) ∧
  ∀ s0 : State, ∃ n,
    reported_visits (fst (respond (index request) s0)) = Some n ∧
    n = default 0 (session s0 !! "num_visits") ∧
    session (snd (respond (index request) s0)) !! "num_visits" = Some (n + 1).
Proof.
  intros Hfresh. split; [|split].
  - rewrite index_respond. cbn. by rewrite Hfresh.
  - rewrite index_respond. cbn. f_equal.
    assert (∀ s1 k, default 0 (session s1 !! "num_visits") = k →
              default 0 (session (visits requests s1) !! "num_visits")
              = k + Z.of_nat (length requests)) as Hgen.
    { induction requests as [|r rs IH]; intros s1 k Hk; cbn [visits foldl length].
      - lia.
      - fold (visits rs (visit s1 r)). rewrite (IH _ (k + 1)); [lia|].
        unfold visit. rewrite index_respond. cbn [snd session].
        rewrite lookup_insert_eq. cbn. lia. }
    rewrite (Hgen s 0); [lia|]. by rewrite Hfresh.
  - intros s0. eexists. rewrite index_respond. cbn [fst snd session reported_visits num_visits].
    split; [done|]. split; [done|]. by rewrite lookup_insert_eq.
Qed.

Lemma index_visit_counter_witness :
  session poem_state !! "num_visits" = None ∧
  reported_visits
    (fst (respond (index anonymous_get) (visits [anonymous_get; anonymous_get] poem_state)))
    = Some 2.
Proof.
  split; [reflexivity|].
  pose proof (index_visit_counter poem_state [anonymous_get; anonymous_get] anonymous_get
                eq_refl) as (_ & H & _).
  exact H.
Defined.

(** ** Loans *)

Section order_by.
Variable nf : bool.

#[local] Instance due_back_order_total : Total (due_back_order nf).
Proof.
  intros x y. unfold due_back_order, due_back_le.
  destruct (due_back x), (due_back y), nf; cbn; auto; lia.
Qed.

#[local] Instance due_back_order_trans : Transitive (due_back_order nf).
Proof.
  intros x y z. unfold due_back_order, due_back_le.
  destruct (due_back x), (due_back y), (due_back z), nf; cbn; auto; try done; lia.
Qed.

Lemma insert_by_due_back_perm x rows : insert_by_due_back nf x rows ≡ₚ x :: rows.
Proof.
  induction rows as [|y rows IH]; cbn; [done|].
  destruct (due_back_le nf (due_back x) (due_back y)); [done|].
  rewrite IH. apply Permutation_swap.
Qed.

Lemma insert_by_due_back_hd x y rows :
  due_back_order nf y x → HdRel (due_back_order nf) y rows →
  HdRel (due_back_order nf) y (insert_by_due_back nf x rows).
Proof.
  intros Hyx Hhd. destruct rows as [|z rows]; cbn; [by constructor|].
  destruct (due_back_le nf (due_back x) (due_back z)); constructor; [done|].
  by inversion Hhd.
Qed.

Lemma insert_by_due_back_sorted x rows :
  Sorted (due_back_order nf) rows → Sorted (due_back_order nf) (insert_by_due_back nf x rows).
Proof.
  induction 1 as [|y rows Hs IH Hhd]; cbn; [by repeat constructor|].
  destruct (due_back_le nf (due_back x) (due_back y)) eqn:Hxy.
  - repeat constructor; done.
  - constructor; [done|]. apply insert_by_due_back_hd; [|done].
    destruct (total (due_back_order nf) x y) as [H|H]; [|done].
    unfold due_back_order in H. congruence.
Qed.

Lemma order_by_due_back_perm rows : order_by_due_back nf rows ≡ₚ rows.
Proof.
  induction rows as [|x rows IH]; cbn; [done|].
  by rewrite insert_by_due_back_perm, IH.
Qed.

Lemma order_by_due_back_sorted rows : StronglySorted (due_back_order nf) (order_by_due_back nf rows).
Proof.
  apply Sorted_StronglySorted; [apply _|].
  induction rows as [|x rows IH]; cbn; [constructor|].
  by apply insert_by_due_back_sorted.
Qed.

(** In a list in this order, of two rows that both have a date the earlier
    one is not due later. *)
Lemma due_back_order_dates (rows : list BookInstance) (i j : nat) x y a b :
  StronglySorted (due_back_order nf) rows → (i < j)%nat →
  rows !! i = Some x → rows !! j = Some y →
  due_back x = Some a → due_back y = Some b → a <= b.
Proof.
  intros Hs. revert i j. induction Hs as [|z rows Hs IH Hall]; intros i j Hij Hi Hj Ha Hb.
  - by rewrite lookup_nil in Hi.
  - destruct j as [|j]; [lia|]. cbn in Hj. destruct i as [|i].
    + cbn in Hi. injection Hi as ->.
      rewrite Forall_forall in Hall.
      assert (due_back_order nf x y) as Hxy.
      { apply Hall. by eapply list_elem_of_lookup_2. }
      unfold due_back_order in Hxy. rewrite Ha, Hb in Hxy. cbn in Hxy. lia.
    + cbn in Hi. apply (IH i j); [lia|done..].
Qed.
End order_by.

(** C4: for a logged-in user the queryset of "my loans" is read with one
    query and holds exactly the rows of BookInstance whose borrower is the
    user and whose status is 'o', each as often as the table does, in
    non-decreasing order of due-back date. *)
Theorem my_loans_queryset (request : Request) (uid : Pk) (perms : list string) (s : State) :
  user request = AuthUser uid perms →
  ∃ qs,
    LoanedBooksByUser_get_queryset request s =
      (inr qs, mkState (db s) (session s) (clock s) (queries s ++ [Select MBookInstance])) ∧
    qs ≡ₚ filter (λ bi, borrower bi = Some uid ∧ status bi = "o") (BookInstance_table (db s)) ∧
    (∀ bi, bi ∈ qs ↔
       bi ∈ BookInstance_table (db s) ∧ borrower bi = Some uid ∧ status bi = "o") ∧
    StronglySorted (due_back_order (nulls_first (db s))) qs ∧
    (∀ (i j : nat) x y a b, (i < j)%nat → qs !! i = Some x → qs !! j = Some y →
       due_back x = Some a → due_back y = Some b → a <= b).
Proof.
  intros Hu. unfold LoanedBooksByUser_get_queryset. rewrite Hu. run_M.
  eexists. split; [reflexivity|].
  assert (order_by_due_back (nulls_first (db s))
            (filter_status "o" (filter_borrower uid (BookInstance_table (db s))))
          ≡ₚ filter (λ bi, borrower bi = Some uid ∧ status bi = "o")
               (BookInstance_table (db s))) as Hperm.
  { rewrite order_by_due_back_perm. unfold filter_status, filter_borrower.
    rewrite list_filter_filter.
    by rewrite (list_filter_iff _ (λ bi, borrower bi = Some uid ∧ status bi = "o"))
      by tauto. }
  split; [done|]. split; [|split].
  - intros bi. rewrite Hperm, list_elem_of_filter. tauto.
  - apply order_by_due_back_sorted.
  - intros i j x y a b.
    apply (due_back_order_dates (nulls_first (db s))), order_by_due_back_sorted.
Qed.

Lemma my_loans_queryset_witness :
  ∃ qs, fst (LoanedBooksByUser_get_queryset librarian_get loans_state) = inr qs ∧
        (mkBookInstance 3 (Some 1) "o" (Some 738010) (Some 7)) ∈ qs.
Proof.
  destruct (my_loans_queryset librarian_get 7 ["catalog.can_mark_returned"] loans_state
              eq_refl) as (qs & Hrun & _ & Hin & _).
  exists qs. split; [by rewrite Hrun|].
  apply Hin. split; [|done]. cbn. do 2 apply list_elem_of_further. apply list_elem_of_here.
Defined.

(** ** Pagination *)

Lemma slice_lookup {A} (l : list A) (bottom top : Z) (i : nat) :
  0 <= bottom →
  slice l bottom top !! i =
    if decide (Z.of_nat i < top - bottom) then l !! (Z.to_nat bottom + i)%nat else None.
Proof.
  intros Hb. unfold slice. rewrite lookup_take, lookup_drop.
  repeat case_decide; try done; lia.
Qed.

(** The number of pages of [n] rows, 10 to a page, is the least [q] with
    [max 1 n <= 10 q]. *)
Lemma num_pages_bounds (n : Z) :
  10 * (num_pages n paginate_by - 1) < Z.max 1 n <= 10 * num_pages n paginate_by.
Proof.
  unfold num_pages, paginate_by.
  pose proof (Z.div_mod (Z.max 1 n + 10 - 1) 10 ltac:(lia)).
  pose proof (Z.mod_pos_bound (Z.max 1 n + 10 - 1) 10 ltac:(lia)).
  lia.
Qed.

Lemma page_spec {A} (l : list A) (N : Z) (s : State) :
  if decide (1 <= N <= num_pages (count l) paginate_by)
  then ∃ pg, page l N paginate_by s = (inr pg, s) ∧ is_page_of l N pg
  else page l N paginate_by s = (inl Http404, s).
Proof.
  pose proof (num_pages_bounds (count l)) as Hq.
  unfold page, validate_number.
  set (q := num_pages (count l) paginate_by) in *.
  unfold paginate_by, count in *.
  set (c := Z.of_nat (length l)) in *. assert (0 <= c) as Hc by lia.
  case_decide as HN.
  - destruct (Z.ltb_spec N 1) as [?|_]; [lia|].
    destruct (Z.gtb_spec N q) as [?|_]; [lia|].
    run_M. eexists. split; [reflexivity|].
    assert (10 * (N - 1) <= c) as Hbot by lia.
    replace ((N - 1) * 10) with (10 * (N - 1)) by lia.
    split.
    + unfold slice. rewrite length_take.
      destruct (Z.geb_spec (10 * (N - 1) + 10 + 0) c); lia.
    + intros i. rewrite slice_lookup by lia.
      destruct (Z.geb_spec (10 * (N - 1) + 10 + 0) c); repeat case_decide; try done; try lia.
      symmetry. apply lookup_ge_None. lia.
  - destruct (Z.ltb_spec N 1) as [?|?]; [done|].
    destruct (Z.gtb_spec N q) as [?|?]; [|lia].
    destruct (Z.eqb_spec N 1) as [->|?]; [|done].
    exfalso. apply HN. lia.
Qed.

(** Pagination of any ordered result. *)
Lemma paginate_queryset_spec {A} (l : list A) (request : Request) (s : State) :
  match page_number_of (GET_page request) (count l) with
  | Some N =>
      if decide (1 <= N <= num_pages (count l) paginate_by)
      then ∃ pg, paginate_queryset l paginate_by request s = (inr pg, s) ∧ is_page_of l N pg
      else paginate_queryset l paginate_by request s = (inl Http404, s)
  | None => paginate_queryset l paginate_by request s = (inl Http404, s)
  end.
Proof.
  unfold paginate_queryset, page_number_of.
  destruct (GET_page request) as [|n| |other]; run_M; try done.
  - apply (page_spec l 1 s).
  - apply (page_spec l n s).
  - apply (page_spec l _ s).
Qed.

(** A view that reads its queryset and renders the page asked for serves the
    pages of the queryset. *)
Lemma paginated_view_serves {A} (full : list A) (render : list A → Response)
    (request : Request) (s : State) :
  serves_pages full render request
    (fst (respond (pg ← paginate_queryset full paginate_by request; mret (render pg)) s)).
Proof.
  unfold serves_pages. pose proof (paginate_queryset_spec full request s) as H.
  destruct (page_number_of _ _) as [N|].
  - case_decide.
    + destruct H as (pg & Hrun & Hpg). exists pg. split; [|done].
      run_M. by rewrite Hrun.
    + run_M. by rewrite H.
  - run_M. by rewrite H.
Qed.



(** ** Access control *)

(** C5, as the code has it: an anonymous request to "my loans" is sent to the
    login page; a request of a logged-in user without the permission
    [catalog.can_mark_returned] gets "forbidden" from "all loans" and is sent
    to the login page by the renewal view; in each case the state is left as
    it was, so no query has been executed. *)
Theorem rejections_before_any_query
    (clean : Date → QueryDict → option Date) (anonymous request : Request) (pk : Pk) (s : State) :
  user anonymous = AnonymousUser →
  is_authenticated (user request) = true →
  has_perm (user request) "catalog.can_mark_returned" = false →
  respond (LoanedBooksByUserListView anonymous) s = (RedirectToLogin, s) ∧
  respond (AllBorrowedBooksByUserListView request) s = (Forbidden, s) ∧
  respond (renew_book_librarian clean request pk) s = (RedirectToLogin, s).
Proof.
  intros Hanon Hauth Hperm. repeat split.
  - unfold LoanedBooksByUserListView, LoginRequiredMixin, handle_no_permission.
    by rewrite Hanon.
  - unfold AllBorrowedBooksByUserListView, PermissionRequiredMixin, handle_no_permission.
    by rewrite Hperm, Hauth.
  - unfold renew_book_librarian, permission_required. by rewrite Hperm.
Qed.

Lemma rejections_before_any_query_witness :
  user anonymous_get = AnonymousUser ∧
  is_authenticated (user member_post) = true ∧
  has_perm (user member_post) "catalog.can_mark_returned" = false ∧
  respond (AllBorrowedBooksByUserListView member_post) loans_state = (Forbidden, loans_state).
Proof.
  do 3 (split; [reflexivity|]).
  apply (rejections_before_any_query sample_RenewBookForm_clean anonymous_get member_post 1
           loans_state); reflexivity.
Defined.

(** C5 as stated fails: the renewal view answers a logged-in user without
    the permission with a redirect to the login page, not with "forbidden". *)
Lemma renewal_rejection_is_not_forbidden :
  is_authenticated (user member_post) = true ∧
  has_perm (user member_post) "catalog.can_mark_returned" = false ∧
  fst (respond (renew_book_librarian sample_RenewBookForm_clean member_post 1) loans_state)
    = RedirectToLogin ∧
  fst (respond (renew_book_librarian sample_RenewBookForm_clean member_post 1) loans_state)
    ≠ Forbidden.
Proof. repeat split. discriminate. Qed.

(** ** The renewal workflow *)

(** Keys are unique, so the row with the key of a row of the table is that
    row. *)
Lemma filter_inst_pk_unique (rows : list BookInstance) (bi : BookInstance) :
  NoDup (inst_pk <$> rows) → bi ∈ rows →
  filter (λ row, inst_pk row = inst_pk bi) rows = [bi].
Proof.
  induction rows as [|r rows IH]; intros Hnd Hin; [by apply elem_of_nil in Hin|].
  rewrite fmap_cons in Hnd. apply NoDup_cons in Hnd as [Hr Hnd].
  rewrite filter_cons. apply elem_of_cons in Hin as [->|Hin].
  - rewrite decide_True by done. f_equal.
    apply elem_of_nil_inv. intros row [Heq Hrow]%list_elem_of_filter.
    apply Hr. rewrite <- Heq. by apply list_elem_of_fmap_2.
  - rewrite decide_False; [by apply IH|].
    intros Heq. apply Hr. rewrite Heq. by apply list_elem_of_fmap_2.
Qed.

Lemma inst_pk_inj (rows : list BookInstance) (x y : BookInstance) :
  NoDup (inst_pk <$> rows) → x ∈ rows → y ∈ rows → inst_pk x = inst_pk y → x = y.
Proof.
  intros Hnd Hx Hy Heq.
  pose proof (filter_inst_pk_unique rows y Hnd Hy) as Hf.
  assert (x ∈ filter (λ row, inst_pk row = inst_pk y) rows) as Hxf
    by (by apply list_elem_of_filter).
  rewrite Hf in Hxf. by apply list_elem_of_singleton in Hxf.
Qed.

Lemma get_BookInstance_found (bi : BookInstance) (s : State) :
  NoDup (inst_pk <$> BookInstance_table (db s)) → bi ∈ BookInstance_table (db s) →
  get_BookInstance_or_404 (inst_pk bi) s =
    (inr bi, mkState (db s) (session s) (clock s) (queries s ++ [Select MBookInstance])).
Proof.
  intros Hnd Hin. unfold get_BookInstance_or_404. run_M.
  by rewrite (filter_inst_pk_unique _ _ Hnd Hin).
Qed.

(** What a successful renewal leaves in the store. *)
Lemma renew_post_valid (clean : Date → QueryDict → option Date) (request : Request)
    (s : State) (bi : BookInstance) (d : Date) :
  has_perm (user request) "catalog.can_mark_returned" = true →
  method request = "POST" →
  NoDup (inst_pk <$> BookInstance_table (db s)) →
  bi ∈ BookInstance_table (db s) →
  clean (clock s) (POST request) = Some d →
  respond (renew_book_librarian clean request (inst_pk bi)) s =
    (HttpResponseRedirect "all-borrowed-books",
     mkState
       (set_BookInstance_table
          ((λ row, if decide (inst_pk row = inst_pk bi) then set_due_back (Some d) bi else row)
             <$> BookInstance_table (db s))
          (db s))
       (session s) (clock s)
       (queries s ++ [Select MBookInstance; Update MBookInstance (inst_pk bi)])).
Proof.
  intros Hperm Hpost Hnd Hin Hclean.
  unfold renew_book_librarian, permission_required, renew_book_librarian_view.
  rewrite Hperm, Hpost. cbn [String.eqb Ascii.eqb Bool.eqb].
  unfold BookInstance_save. run_M. rewrite (get_BookInstance_found bi s Hnd Hin).
  cbn [clock]. rewrite Hclean. cbn. by rewrite <- (assoc_L (++)).
Qed.

(** C3: a POST of a user with the permission to the renewal view of an
    existing BookInstance: when the form is valid, the response is a redirect
    to 'all-borrowed-books' and the row with the target's key then has the
    cleaned date as its due-back date; when it is not, the store is as it was
    and the response renders the bound form with the target. *)
Theorem renew_post (clean : Date → QueryDict → option Date) (request : Request)
    (s : State) (bi : BookInstance) :
  has_perm (user request) "catalog.can_mark_returned" = true →
  method request = "POST" →
  NoDup (inst_pk <$> BookInstance_table (db s)) →
  bi ∈ BookInstance_table (db s) →
  match clean (clock s) (POST request) with
  | Some d =>
      fst (respond (renew_book_librarian clean request (inst_pk bi)) s)
        = HttpResponseRedirect "all-borrowed-books" ∧
      ∃ bi',
        filter (λ row, inst_pk row = inst_pk bi)
          (BookInstance_table (db (snd (respond (renew_book_librarian clean request (inst_pk bi)) s))))
          = [bi'] ∧
        due_back bi' = Some d
  | None =>
      fst (respond (renew_book_librarian clean request (inst_pk bi)) s)
        = Render "catalog/book_renew_librarian.html" (CtxRenew (FormBound (POST request)) bi) ∧
      db (snd (respond (renew_book_librarian clean request (inst_pk bi)) s)) = db s
  end.
Proof.
  intros Hperm Hpost Hnd Hin. destruct (clean _ _) as [d|] eqn:Hclean.
  - rewrite (renew_post_valid clean request s bi d) by done.
    split; [done|]. exists (set_due_back (Some d) bi). split; [|done].
    cbn [snd db BookInstance_table set_BookInstance_table].
    apply (filter_inst_pk_unique _ (set_due_back (Some d) bi)).
    + rewrite <- list_fmap_compose.
      erewrite list_fmap_ext; [exact Hnd|]. intros i row _. cbn. by case_decide.
    + apply list_elem_of_fmap. exists bi. split; [|done]. by rewrite decide_True.
  - unfold renew_book_librarian, permission_required, renew_book_librarian_view.
    rewrite Hperm, Hpost. cbn [String.eqb Ascii.eqb Bool.eqb].
    run_M. rewrite (get_BookInstance_found bi s Hnd Hin). cbn [clock].
    by rewrite Hclean.
Qed.

Lemma loans_store_keys_unique : NoDup (inst_pk <$> BookInstance_table (db loans_state)).
Proof. apply (bool_decide_unpack _). by vm_compute. Qed.

Lemma loans_store_first_copy :
  mkBookInstance 1 (Some 1) "o" (Some 738020) (Some 7) ∈ BookInstance_table (db loans_state).
Proof. apply list_elem_of_here. Qed.

Lemma renew_post_witness :
  has_perm (user librarian_post) "catalog.can_mark_returned" = true ∧
  method librarian_post = "POST" ∧
  fst (respond (renew_book_librarian sample_RenewBookForm_clean librarian_post 1) loans_state)
    = HttpResponseRedirect "all-borrowed-books".
Proof.
  split; [reflexivity|]. split; [reflexivity|].
  pose proof (renew_post sample_RenewBookForm_clean librarian_post loans_state
                (mkBookInstance 1 (Some 1) "o" (Some 738020) (Some 7))
                eq_refl eq_refl loans_store_keys_unique loans_store_first_copy) as H.
  exact (proj1 H).
Defined.

(** C8: a successful renewal leaves the tables of Book, Author and Genre and
    the session as they were, and in the table of BookInstance every row
    keeps its place, its key, its Book, its status and its borrower; every
    row but the target is unchanged, and the target's due-back date is the
    cleaned date. *)
Theorem renew_frame (clean : Date → QueryDict → option Date) (request : Request)
    (s : State) (bi : BookInstance) (d : Date) :
  has_perm (user request) "catalog.can_mark_returned" = true →
  method request = "POST" →
  NoDup (inst_pk <$> BookInstance_table (db s)) →
  bi ∈ BookInstance_table (db s) →
  clean (clock s) (POST request) = Some d →
  let s' := snd (respond (renew_book_librarian clean request (inst_pk bi)) s) in
  Book_table (db s') = Book_table (db s) ∧
  Author_table (db s') = Author_table (db s) ∧
  Genre_table (db s') = Genre_table (db s) ∧
  session s' = session s ∧
  length (BookInstance_table (db s')) = length (BookInstance_table (db s)) ∧
  ∀ (i : nat) (row : BookInstance),
    BookInstance_table (db s) !! i = Some row →
    ∃ row',
      BookInstance_table (db s') !! i = Some row' ∧
      inst_pk row' = inst_pk row ∧ book row' = book row ∧
      status row' = status row ∧ borrower row' = borrower row ∧
      (row ≠ bi → row' = row) ∧
      (row = bi → due_back row' = Some d).
Proof.
  intros Hperm Hpost Hnd Hin Hclean s'. subst s'.
  rewrite (renew_post_valid clean request s bi d) by done.
  cbn [snd db session Book_table Author_table Genre_table BookInstance_table
       set_BookInstance_table].
  repeat (split; [done|]). split; [by rewrite length_fmap|].
  intros i row Hrow. rewrite list_lookup_fmap, Hrow. cbn [fmap option_fmap option_map].
  eexists. split; [reflexivity|].
  case_decide as Hpk.
  - assert (row = bi) as ->.
    { apply (inst_pk_inj (BookInstance_table (db s))); [done| |done..].
      by eapply list_elem_of_lookup_2. }
    by repeat split.
  - repeat split; try done. by intros ->.
Qed.

Lemma renew_frame_witness :
  sample_RenewBookForm_clean (clock loans_state) (POST librarian_post) = Some 738003 ∧
  BookInstance_table
    (db (snd (respond (renew_book_librarian sample_RenewBookForm_clean librarian_post 1)
                loans_state))) !! 3%nat
    = Some (mkBookInstance 4 (Some 1) "o" (Some 738015) (Some 8)).
Proof.
  split; [reflexivity|].
  destruct (renew_frame sample_RenewBookForm_clean librarian_post loans_state
              (mkBookInstance 1 (Some 1) "o" (Some 738020) (Some 7)) 738003
              eq_refl eq_refl loans_store_keys_unique loans_store_first_copy eq_refl)
    as (_ & _ & _ & _ & _ & Hrows).
  destruct (Hrows 3%nat (mkBookInstance 4 (Some 1) "o" (Some 738015) (Some 8)) eq_refl)
    as (row' & Hrow' & _ & _ & _ & _ & Hsame & _).
  cbn [inst_pk] in Hrow'. rewrite Hrow'. f_equal. by apply Hsame.
Defined.

(** C9: a GET of a user with the permission to the renewal view of an
    existing BookInstance, on a day at least three weeks before the last
    date: the response renders the unbound form whose renewal date is the day
    21 days after today, together with the target; the store is only read. *)
Theorem renew_get (clean : Date → QueryDict → option Date) (request : Request)
    (s : State) (bi : BookInstance) :
  has_perm (user request) "catalog.can_mark_returned" = true →
  method request = "GET" →
  NoDup (inst_pk <$> BookInstance_table (db s)) →
  bi ∈ BookInstance_table (db s) →
  date_min <= clock s → clock s + 21 <= date_max →
  respond (renew_book_librarian clean request (inst_pk bi)) s =
    (Render "catalog/book_renew_librarian.html" (CtxRenew (FormInitial (clock s + 21)) bi),
     mkState (db s) (session s) (clock s) (queries s ++ [Select MBookInstance])).
Proof.
  intros Hperm Hget Hnd Hin Hmin Hmax.
  unfold renew_book_librarian, permission_required, renew_book_librarian_view.
  rewrite Hperm, Hget. cbn [String.eqb Ascii.eqb Bool.eqb].
  run_M. rewrite (get_BookInstance_found bi s Hnd Hin). cbn [clock].
  unfold date_add, timedelta_weeks, date_min, date_max in *.
  replace (7 * 3) with 21 by done.
  destruct (Z.leb_spec 1 (clock s + 21)); [|lia].
  destruct (Z.leb_spec (clock s + 21) 3652059); [|lia].
  done.
Qed.

Lemma renew_get_witness :
  has_perm (user librarian_get) "catalog.can_mark_returned" = true ∧
  method librarian_get = "GET" ∧
  date_min <= clock loans_state ∧ clock loans_state + 21 <= date_max ∧
  fst (respond (renew_book_librarian sample_RenewBookForm_clean librarian_get 1) loans_state)
    = Render "catalog/book_renew_librarian.html"
        (CtxRenew (FormInitial 738021) (mkBookInstance 1 (Some 1) "o" (Some 738020) (Some 7))).
Proof.
  split; [reflexivity|]. split; [reflexivity|]. split; [by vm_compute|]. split; [by vm_compute|].
  pose proof (renew_get sample_RenewBookForm_clean librarian_get loans_state
                (mkBookInstance 1 (Some 1) "o" (Some 738020) (Some 7))
                eq_refl eq_refl loans_store_keys_unique loans_store_first_copy
                ltac:(by vm_compute) ltac:(by vm_compute)) as H.
  exact (f_equal fst H).
Defined.

(** The renewal view looks at the method only to tell POST from the rest. *)
Lemma renew_method_irrelevant (clean : Date → QueryDict → option Date) (request : Request)
    (pk : Pk) (s : State) :
  method request ≠ "POST" →
  respond (renew_book_librarian clean request pk) s =
    respond (renew_book_librarian clean (with_method "GET" request) pk) s.
Proof.
  intros Hm. unfold renew_book_librarian, permission_required, renew_book_librarian_view.
  cbn [with_method user method POST].
  apply String.eqb_neq in Hm. rewrite Hm. done.
Qed.

(** C10: a request of a user with the permission to the renewal view of an
    existing BookInstance with any method other than POST, on a day at least
    three weeks before the last date, is answered as a GET is: with the
    unbound form whose renewal date is the day 21 days after today, together
    with the target, and with the store only read. *)
Theorem renew_other_methods (clean : Date → QueryDict → option Date) (request : Request)
    (s : State) (bi : BookInstance) :
  has_perm (user request) "catalog.can_mark_returned" = true →
  method request ≠ "POST" →
  NoDup (inst_pk <$> BookInstance_table (db s)) →
  bi ∈ BookInstance_table (db s) →
  date_min <= clock s → clock s + 21 <= date_max →
  respond (renew_book_librarian clean request (inst_pk bi)) s =
    respond (renew_book_librarian clean (with_method "GET" request) (inst_pk bi)) s ∧
  respond (renew_book_librarian clean request (inst_pk bi)) s =
    (Render "catalog/book_renew_librarian.html" (CtxRenew (FormInitial (clock s + 21)) bi),
     mkState (db s) (session s) (clock s) (queries s ++ [Select MBookInstance])).
Proof.
  intros Hperm Hm Hnd Hin Hmin Hmax.
  pose proof (renew_method_irrelevant clean request (inst_pk bi) s Hm) as Heq.
  split; [done|]. rewrite Heq.
  by apply (renew_get clean (with_method "GET" request) s bi).
Qed.

Lemma renew_other_methods_witness :
  method librarian_put ≠ "POST" ∧
  fst (respond (renew_book_librarian sample_RenewBookForm_clean librarian_put 1) loans_state)
    = Render "catalog/book_renew_librarian.html"
        (CtxRenew (FormInitial 738021) (mkBookInstance 1 (Some 1) "o" (Some 738020) (Some 7))).
Proof.
  split; [discriminate|].
  pose proof (renew_other_methods sample_RenewBookForm_clean librarian_put loans_state
                (mkBookInstance 1 (Some 1) "o" (Some 738020) (Some 7))
                eq_refl ltac:(discriminate) loans_store_keys_unique loans_store_first_copy
                ltac:(by vm_compute) ltac:(by vm_compute)) as [_ H].
  exact (f_equal fst H).
Defined.

(** ** Creating and updating a Book *)

(** The form of the update view writes the summary, the genres and the
    language, and nothing else. *)
Lemma BookUpdate_construct_instance (cleaned instance : Book) :
  construct_instance (form_fields BookUpdate_fields) cleaned instance =
    mkBook (book_pk instance) (title instance) (author instance)
      (summary cleaned) (genre cleaned) (language cleaned).
Proof. reflexivity. Qed.

(** The form of the create view writes every field. *)
Lemma BookCreate_construct_instance (cleaned instance : Book) :
  construct_instance (form_fields BookCreate_fields) cleaned instance =
    mkBook (book_pk instance) (title cleaned) (author cleaned)
      (summary cleaned) (genre cleaned) (language cleaned).
Proof. reflexivity. Qed.

(** Whatever the update view is sent, the keys, titles and authors in the
    table of Book stay as they were. *)
Lemma BookUpdate_post_keeps_title_author
    (clean : list BookField → QueryDict → option Book) (request : Request) (pk : Pk)
    (s : State) :
  (λ b, (book_pk b, title b, author b))
    <$> Book_table (db (snd (respond (BookUpdate_post clean request pk) s)))
  = (λ b, (book_pk b, title b, author b)) <$> Book_table (db s).
Proof.
  unfold BookUpdate_post, PermissionRequiredMixin, handle_no_permission.
  destruct (has_perm _ _); [|by destruct (is_authenticated _)].
  unfold get_Book_or_404, Book_save. run_M.
  destruct (filter _ _) as [|b [|b' rest]] eqn:Hf; [done| |done].
  destruct (clean _ _) as [cleaned|]; [|done].
  cbn [fst snd db Book_table set_Book_table].
  rewrite <- list_fmap_compose. apply list_fmap_ext. intros i row Hrow.
  unfold compose. rewrite BookUpdate_construct_instance. cbn [book_pk].
  case_decide as Hpk; [|done]. cbn [book_pk title author].
  assert (row ∈ filter (λ b0, book_pk b0 = pk) (Book_table (db s))) as Hin.
  { apply list_elem_of_filter. split; [|by eapply list_elem_of_lookup_2].
    assert (b ∈ filter (λ b0, book_pk b0 = pk) (Book_table (db s))) as Hb
      by (rewrite Hf; apply list_elem_of_here).
    apply list_elem_of_filter in Hb as [Hb _]. congruence. }
  rewrite Hf in Hin. apply list_elem_of_singleton in Hin as ->. done.
Qed.

(** C6, as the code has it: the form of the Book update view has exactly the
    fields summary, genre and language; it writes these three from the
    submitted data and leaves the rest of the Book as it is, so that no title
    and no author in the store changes through this view; the form of the Book
    create view ([fields = '__all__']) has every field of Book, title and
    author among them, and writes them all. *)
Theorem book_edit_fields :
  (∀ f, f ∈ form_fields BookUpdate_fields ↔ f ∈ [FSummary; FGenre; FLanguage]) ∧
  (∀ cleaned instance,
     construct_instance (form_fields BookUpdate_fields) cleaned instance =
       mkBook (book_pk instance) (title instance) (author instance)
         (summary cleaned) (genre cleaned) (language cleaned)) ∧
  (∀ clean request pk s,
     (λ b, (book_pk b, title b, author b))
       <$> Book_table (db (snd (respond (BookUpdate_post clean request pk) s)))
     = (λ b, (book_pk b, title b, author b)) <$> Book_table (db s)) ∧
  (∀ f : BookField, f ∈ form_fields BookCreate_fields) ∧
  (∀ cleaned instance,
     construct_instance (form_fields BookCreate_fields) cleaned instance =
       mkBook (book_pk instance) (title cleaned) (author cleaned)
         (summary cleaned) (genre cleaned) (language cleaned)).
Proof.
  split; [done|]. split; [exact BookUpdate_construct_instance|].
  split; [exact BookUpdate_post_keeps_title_author|].
  split; [|exact BookCreate_construct_instance].
  intros f. apply (bool_decide_unpack _). by destruct f.
Qed.

(** C6 as stated fails for the create view: title is a field of its form
    though not one of summary, genre and language, and a submitted title and
    author are those of the Book it creates. *)
Lemma book_create_sets_title_and_author :
  FTitle ∈ form_fields BookCreate_fields ∧
  (FTitle ∉ [FSummary; FGenre; FLanguage]) ∧
  respond (BookCreate_post sample_BookForm_clean cataloguer_post) loans_state =
    (RedirectToObject MBook 2,
     mkState
       (set_Book_table
          [mkBook 1 "Odes" (Some 1) "Poems" [1] None; mkBook 2 "Dune" (Some 1) "Sand" [1] None]
          loans_store)
       ∅ 738000 [Insert MBook 2]).
Proof.
  split; [apply list_elem_of_here|]. split; [|reflexivity].
  apply (bool_decide_unpack _). by vm_compute.
Qed.

(** * Further properties of the views *)

(** ** Pages *)

Lemma page_rows_valid {A} (l : list A) (N : Z) (s : State) :
  1 <= N <= num_pages (count l) paginate_by →
  page l N paginate_by s = (inr (page_rows l N s), s) ∧
  page_rows l N s = take 10 (drop (Z.to_nat (10 * (N - 1))) l).
Proof.
  intros HN. pose proof (page_spec l N s) as H. rewrite decide_True in H by done.
  destruct H as (pg & Hrun & _ & Hpg). unfold page_rows. rewrite Hrun.
  split; [done|]. apply list_eq. intros i.
  rewrite Hpg, lookup_take, lookup_drop. by repeat case_decide.
Qed.

Lemma page_rows_invalid {A} (l : list A) (N : Z) (s : State) :
  ¬ (1 <= N <= num_pages (count l) paginate_by) →
  page l N paginate_by s = (inl Http404, s).
Proof. intros HN. pose proof (page_spec l N s) as H. by rewrite decide_False in H. Qed.

Lemma concat_pages_take {A} (l : list A) (s : State) (q : nat) :
  Z.of_nat q <= num_pages (count l) paginate_by →
  concat ((λ k : nat, page_rows l (Z.of_nat k + 1) s) <$> seq 0 q) = take (10 * q) l.
Proof.
  induction q as [|q IH]; intros Hq; [done|].
  rewrite seq_S, fmap_app, concat_app, IH by lia. cbn [fmap list_fmap concat].
  rewrite app_nil_r.
  rewrite (proj2 (page_rows_valid l (Z.of_nat (0 + q) + 1) s ltac:(lia))).
  replace (Z.to_nat (10 * (Z.of_nat (0 + q) + 1 - 1))) with (10 * q)%nat by lia.
  rewrite take_take_drop. f_equal. lia.
Qed.

(** X1: the pages of a result, from the first to the last, are the result cut
    into consecutive pieces: put one after the other they give it back. *)
Theorem pages_partition {A} (l : list A) (s : State) :
  concat ((λ k : nat, page_rows l (Z.of_nat k + 1) s)
            <$> seq 0 (Z.to_nat (num_pages (count l) paginate_by))) = l.
Proof.
  pose proof (num_pages_bounds (count l)) as Hq.
  rewrite concat_pages_take by lia. apply take_ge. unfold count in *. lia.
Qed.

(** X2: Page [N] of [n] rows has [min 10 (n - 10 (N - 1))] rows: a page before
    the last one has exactly 10, and the last page of a result that is not
    empty is not empty. *)
Theorem page_sizes {A} (l : list A) (N : Z) (s : State) :
  1 <= N <= num_pages (count l) paginate_by →
  length (page_rows l N s) = (10 `min` (length l - Z.to_nat (10 * (N - 1))))%nat ∧
  (N < num_pages (count l) paginate_by → length (page_rows l N s) = 10%nat) ∧
  (l ≠ [] → page_rows l N s ≠ []).
Proof.
  intros HN. pose proof (num_pages_bounds (count l)) as Hq.
  rewrite (proj2 (page_rows_valid l N s HN)).
  assert (length (take 10 (drop (Z.to_nat (10 * (N - 1))) l))
          = (10 `min` (length l - Z.to_nat (10 * (N - 1))))%nat) as Hlen
    by by rewrite length_take, length_drop.
  unfold count in *. set (q := num_pages (Z.of_nat (length l)) paginate_by) in *.
  split; [done|]. split.
  - intros Hlt. rewrite Hlen. lia.
  - intros Hne Hnil. rewrite Hnil in Hlen.
    assert (1 <= length l)%nat by (destruct l; [done|cbn; lia]).
    change (length (@nil A)) with 0%nat in Hlen. lia.
Qed.

Lemma page_sizes_witness :
  1 <= 2 <= num_pages (count (seq 0 25)) paginate_by ∧
  length (page_rows (seq 0 25) 2 empty_state) = 10%nat.
Proof.
  assert (1 <= 2 <= num_pages (count (seq 0 25)) paginate_by) as H by by vm_compute.
  split; [exact H|].
  apply (page_sizes (seq 0 25) 2 empty_state H). by vm_compute.
Defined.

(** X3: a request for the page 'last' is answered with the page that ends with
    the last row of the result. *)
Theorem page_last_has_last_row {A} (l : list A) (x : A) (request : Request) (s : State) :
  GET_page request = PageLast →
  last l = Some x →
  ∃ pg, paginate_queryset l paginate_by request s = (inr pg, s) ∧ last pg = Some x.
Proof.
  intros Hlast Hx. unfold paginate_queryset. rewrite Hlast. run_M.
  pose proof (num_pages_bounds (count l)) as Hq.
  set (q := num_pages (count l) paginate_by) in *.
  assert (1 <= length l)%nat as Hlen.
  { apply last_Some in Hx as [l' ->]. rewrite length_app. cbn. lia. }
  unfold count in Hq.
  assert (1 <= q <= q) as HN by lia.
  destruct (page_rows_valid l q s HN) as [Hrun Hrows].
  exists (page_rows l q s). split; [done|].
  rewrite Hrows, last_lookup, length_take, length_drop, lookup_take, lookup_drop.
  rewrite last_lookup in Hx. rewrite decide_True by lia.
  rewrite <- Hx. f_equal. lia.
Qed.

Lemma page_last_has_last_row_witness :
  ∃ pg, paginate_queryset (seq 0 25) paginate_by
          (mkRequest "GET" AnonymousUser [] PageLast) empty_state = (inr pg, empty_state) ∧
        last pg = Some 24%nat.
Proof.
  apply (page_last_has_last_row (seq 0 25) 24%nat
           (mkRequest "GET" AnonymousUser [] PageLast) empty_state); reflexivity.
Defined.

Lemma is_page_of_nil {A} (N : Z) (pg : list A) : is_page_of [] N pg → pg = [].
Proof.
  intros [_ Hpg]. apply list_eq. intros i. rewrite Hpg.
  case_decide; by rewrite !lookup_nil.
Qed.

Lemma serves_pages_nil {A} (render : list A → Response) (request : Request)
    (response : Response) :
  page_number_of (GET_page request) 0 = Some 1 →
  serves_pages [] render request response → response = render [].
Proof.
  unfold serves_pages. change (count (@nil A)) with 0. intros ->.
  rewrite decide_True by by vm_compute.
  intros (pg & -> & Hpg). by rewrite (is_page_of_nil _ _ Hpg).
Qed.

Lemma BookListView_serves (request : Request) (s : State) :
  serves_pages (Book_table (db s))
    (λ pg, Render "catalog/book_list.html" (CtxBookList pg))
    request (fst (respond (BookListView request) s)).
Proof.
  exact (paginated_view_serves (Book_table (db s)) _ request
           (mkState (db s) (session s) (clock s) (queries s ++ [Select MBook]))).
Qed.

Lemma AuthorListView_serves (request : Request) (s : State) :
  serves_pages (Author_table (db s))
    (λ pg, Render "catalog/author_list.html" (CtxAuthorList pg))
    request (fst (respond (AuthorListView request) s)).
Proof.
  exact (paginated_view_serves (Author_table (db s)) _ request
           (mkState (db s) (session s) (clock s) (queries s ++ [Select MAuthor]))).
Qed.

Lemma LoanedBooksByUserListView_serves (request : Request) (uid : Pk) (perms : list string)
    (s : State) :
  user request = AuthUser uid perms →
  serves_pages
    (order_by_due_back (nulls_first (db s))
       (filter_status "o" (filter_borrower uid (BookInstance_table (db s)))))
    (λ pg, Render "catalog/bookinstance_list_borrowed_user.html" (CtxBookInstanceList pg))
    request (fst (respond (LoanedBooksByUserListView request) s)).
Proof.
  intros Hu.
  unfold LoanedBooksByUserListView, LoginRequiredMixin, LoanedBooksByUser_get_queryset.
  rewrite Hu. cbn [is_authenticated].
  exact (paginated_view_serves _ _ request
           (mkState (db s) (session s) (clock s) (queries s ++ [Select MBookInstance]))).
Qed.

(** X4: a list with nothing to show is served as an empty first page, not as
    "not found": the Book list and the Author list over an empty table, and
    "my loans" of a user who has nothing on loan, when the request asks for no
    page, for page 1 or for the page 'last'. *)
Theorem empty_lists_are_served (request : Request) (s : State) :
  page_number_of (GET_page request) 0 = Some 1 →
  (Book_table (db s) = [] →
   fst (respond (BookListView request) s) = Render "catalog/book_list.html" (CtxBookList [])) ∧
  (Author_table (db s) = [] →
   fst (respond (AuthorListView request) s)
     = Render "catalog/author_list.html" (CtxAuthorList [])) ∧
  (∀ uid perms,
     user request = AuthUser uid perms →
     (∀ bi, bi ∈ BookInstance_table (db s) → borrower bi = Some uid → status bi ≠ "o") →
     fst (respond (LoanedBooksByUserListView request) s)
       = Render "catalog/bookinstance_list_borrowed_user.html" (CtxBookInstanceList [])).
Proof.
  intros Hpage. split; [|split].
  - intros Hnil. pose proof (BookListView_serves request s) as H. rewrite Hnil in H.
    by apply serves_pages_nil in H.
  - intros Hnil. pose proof (AuthorListView_serves request s) as H. rewrite Hnil in H.
    by apply serves_pages_nil in H.
  - intros uid perms Hu Hnone.
    pose proof (LoanedBooksByUserListView_serves request uid perms s Hu) as H.
    assert (filter_status "o" (filter_borrower uid (BookInstance_table (db s))) = []) as Hnil.
    { apply elem_of_nil_inv. intros bi. unfold filter_status, filter_borrower.
      rewrite !list_elem_of_filter. intros (Ho & Hb & Hin). by apply (Hnone bi). }
    rewrite Hnil in H. cbn [order_by_due_back foldr] in H.
    by apply serves_pages_nil in H.
Qed.

Lemma empty_lists_are_served_witness :
  page_number_of (GET_page (mkRequest "GET" AnonymousUser [] PageLast)) 0 = Some 1 ∧
  fst (respond (BookListView (mkRequest "GET" AnonymousUser [] PageLast)) empty_state)
    = Render "catalog/book_list.html" (CtxBookList []).
Proof.
  split; [reflexivity|].
  apply (empty_lists_are_served (mkRequest "GET" AnonymousUser [] PageLast) empty_state);
    reflexivity.
Defined.

(** ** Loans *)

(** X5: the queryset of "all loans" is read with one query and holds exactly the
    rows of BookInstance whose status is 'o', whoever borrowed them, each as
    often as the table does, in non-decreasing order of due-back date. *)
Theorem all_loans_queryset (s : State) :
  ∃ qs,
    AllBorrowedBooksByUser_get_queryset s =
      (inr qs, mkState (db s) (session s) (clock s) (queries s ++ [Select MBookInstance])) ∧
    qs ≡ₚ filter (λ bi, status bi = "o") (BookInstance_table (db s)) ∧
    StronglySorted (due_back_order (nulls_first (db s))) qs ∧
    (∀ (i j : nat) x y a b, (i < j)%nat → qs !! i = Some x → qs !! j = Some y →
       due_back x = Some a → due_back y = Some b → a <= b).
Proof.
  unfold AllBorrowedBooksByUser_get_queryset. run_M.
  eexists. split; [reflexivity|]. split; [|split].
  - apply order_by_due_back_perm.
  - apply order_by_due_back_sorted.
  - intros i j x y a b.
    apply (due_back_order_dates (nulls_first (db s))), order_by_due_back_sorted.
Qed.

(** X6: whatever is in "my loans" of a user is in "all loans", so "my loans" is
    never the longer list. *)
Theorem my_loans_within_all_loans (request : Request) (uid : Pk) (perms : list string)
    (s : State) (mine all : list BookInstance) :
  user request = AuthUser uid perms →
  fst (LoanedBooksByUser_get_queryset request s) = inr mine →
  fst (AllBorrowedBooksByUser_get_queryset s) = inr all →
  (∀ bi, bi ∈ mine → bi ∈ all) ∧ (length mine ≤ length all)%nat.
Proof.
  intros Hu. unfold LoanedBooksByUser_get_queryset, AllBorrowedBooksByUser_get_queryset.
  rewrite Hu. run_M. intros [= <-] [= <-].
  assert (filter_status "o" (filter_borrower uid (BookInstance_table (db s)))
          = filter (λ bi, borrower bi = Some uid)
              (filter_status "o" (BookInstance_table (db s)))) as Hcomm.
  { unfold filter_status, filter_borrower. rewrite !list_filter_filter.
    apply list_filter_iff. tauto. }
  split.
  - intros bi. rewrite !order_by_due_back_perm, Hcomm, list_elem_of_filter. tauto.
  - rewrite !order_by_due_back_perm, Hcomm. apply length_filter.
Qed.

Lemma my_loans_within_all_loans_witness :
  user member_get = AuthUser 8 [] ∧
  Nat.le (length [mkBookInstance 4 (Some 1) "o" (Some 738015) (Some 8)])
    (length [mkBookInstance 3 (Some 1) "o" (Some 738010) (Some 7);
             mkBookInstance 4 (Some 1) "o" (Some 738015) (Some 8);
             mkBookInstance 1 (Some 1) "o" (Some 738020) (Some 7)]).
Proof.
  split; [reflexivity|].
  apply (my_loans_within_all_loans member_get 8 [] loans_state
           [mkBookInstance 4 (Some 1) "o" (Some 738015) (Some 8)]
           [mkBookInstance 3 (Some 1) "o" (Some 738010) (Some 7);
            mkBookInstance 4 (Some 1) "o" (Some 738015) (Some 8);
            mkBookInstance 1 (Some 1) "o" (Some 738020) (Some 7)]
           eq_refl eq_refl eq_refl).
Defined.

(** ** Access control of the guarded views *)

(** X8: an anonymous request is never answered with "forbidden": "all loans", the
    renewal view and the edit views of Book and Author all send it to the
    login page, and leave the state as it was. *)
Theorem anonymous_is_sent_to_login
    (renew_clean : Date → QueryDict → option Date)
    (book_clean : list BookField → QueryDict → option Book)
    (author_clean : list AuthorField → QueryDict → option Author)
    (request : Request) (pk : Pk) (s : State) :
  user request = AnonymousUser →
  respond (AllBorrowedBooksByUserListView request) s = (RedirectToLogin, s) ∧
  respond (renew_book_librarian renew_clean request pk) s = (RedirectToLogin, s) ∧
  respond (BookCreate_post book_clean request) s = (RedirectToLogin, s) ∧
  respond (BookUpdate_post book_clean request pk) s = (RedirectToLogin, s) ∧
  respond_object (AuthorCreate_get request) s = (Plain RedirectToLogin, s) ∧
  respond_object (AuthorCreate_post author_clean request) s = (Plain RedirectToLogin, s) ∧
  respond_object (AuthorUpdate_get request pk) s = (Plain RedirectToLogin, s) ∧
  respond_object (AuthorUpdate_post author_clean request pk) s = (Plain RedirectToLogin, s).
Proof.
  intros Hu.
  unfold AllBorrowedBooksByUserListView, renew_book_librarian, BookCreate_post,
    BookUpdate_post, AuthorCreate_get, AuthorCreate_post, AuthorUpdate_get,
    AuthorUpdate_post, PermissionRequiredMixin, PermissionRequiredMixin_object,
    permission_required, handle_no_permission.
  rewrite Hu. by repeat split.
Qed.

Lemma anonymous_is_sent_to_login_witness :
  user anonymous_get = AnonymousUser ∧
  respond (BookCreate_post sample_BookForm_clean anonymous_get) loans_state
    = (RedirectToLogin, loans_state).
Proof.
  split; [reflexivity|].
  apply (anonymous_is_sent_to_login sample_RenewBookForm_clean sample_BookForm_clean
           sample_AuthorForm_clean anonymous_get 1 loans_state).
  reflexivity.
Defined.

(** X9: each edit view asks for a permission of its own: a logged-in user who
    lacks the permission of a view gets "forbidden" from it, whatever other
    permissions the user holds and whatever is submitted, and the state is
    left as it was. *)
Theorem edit_views_forbidden
    (book_clean : list BookField → QueryDict → option Book)
    (author_clean : list AuthorField → QueryDict → option Author)
    (request : Request) (pk : Pk) (s : State) :
  is_authenticated (user request) = true →
  (has_perm (user request) "catalog.add_book" = false →
   respond (BookCreate_post book_clean request) s = (Forbidden, s)) ∧
  (has_perm (user request) "catalog.change_book" = false →
   respond (BookUpdate_post book_clean request pk) s = (Forbidden, s)) ∧
  (has_perm (user request) "catalog.add_author" = false →
   respond_object (AuthorCreate_get request) s = (Plain Forbidden, s) ∧
   respond_object (AuthorCreate_post author_clean request) s = (Plain Forbidden, s)) ∧
  (has_perm (user request) "catalog.change_author" = false →
   respond_object (AuthorUpdate_get request pk) s = (Plain Forbidden, s) ∧
   respond_object (AuthorUpdate_post author_clean request pk) s = (Plain Forbidden, s)).
Proof.
  intros Hauth.
  unfold BookCreate_post, BookUpdate_post, AuthorCreate_get, AuthorCreate_post,
    AuthorUpdate_get, AuthorUpdate_post, PermissionRequiredMixin,
    PermissionRequiredMixin_object, handle_no_permission.
  rewrite Hauth. split; [|split; [|split]]; intros Hperm; rewrite Hperm; by repeat split.
Qed.

Lemma edit_views_forbidden_witness :
  is_authenticated (user librarian_post) = true ∧
  has_perm (user librarian_post) "catalog.change_book" = false ∧
  respond (BookUpdate_post sample_BookForm_clean librarian_post 1) loans_state
    = (Forbidden, loans_state).
Proof.
  split; [reflexivity|]. split; [reflexivity|].
  apply (edit_views_forbidden sample_BookForm_clean sample_AuthorForm_clean librarian_post 1
           loans_state); reflexivity.
Defined.

(** ** Views that only read *)

Lemma paginate_queryset_state {A} (l : list A) (request : Request) (s : State) :
  snd (paginate_queryset l paginate_by request s) = s.
Proof.
  pose proof (paginate_queryset_spec l request s) as H.
  destruct (page_number_of _ _) as [N|].
  - case_decide; [destruct H as (pg & -> & _)|rewrite H]; done.
  - by rewrite H.
Qed.

Lemma paginated_view_state {A} (full : list A) (render : list A → Response)
    (request : Request) (s : State) :
  snd (respond (pg ← paginate_queryset full paginate_by request; mret (render pg)) s) = s.
Proof.
  pose proof (paginate_queryset_state full request s) as H. run_M.
  destruct (paginate_queryset _ _ _ _) as [[e|pg] s']; cbn in *; subst; [by destruct e|done].
Qed.

(** X10: the list views and the detail views never write: whatever the request
    and whatever they answer, the store, the session and the clock are as
    they were. *)
Theorem list_and_detail_views_read_only (request : Request) (pk : Pk) (s : State) :
  same_data s (snd (respond (BookListView request) s)) ∧
  same_data s (snd (respond (AuthorListView request) s)) ∧
  same_data s (snd (respond (LoanedBooksByUserListView request) s)) ∧
  same_data s (snd (respond (AllBorrowedBooksByUserListView request) s)) ∧
  same_data s (snd (respond_object (BookDetailView request pk) s)) ∧
  same_data s (snd (respond_object (AuthorDetailView request pk) s)).
Proof.
  unfold same_data.
  set (s1 m := mkState (db s) (session s) (clock s) (queries s ++ [Select m])).
  repeat apply conj.
  1-3: change (respond (BookListView request) s)
         with (respond (pg ← paginate_queryset (Book_table (db s)) paginate_by request;
                        mret (Render "catalog/book_list.html" (CtxBookList pg))) (s1 MBook));
       by rewrite paginated_view_state.
  1-3: change (respond (AuthorListView request) s)
         with (respond (pg ← paginate_queryset (Author_table (db s)) paginate_by request;
                        mret (Render "catalog/author_list.html" (CtxAuthorList pg)))
                 (s1 MAuthor));
       by rewrite paginated_view_state.
  1-3: unfold LoanedBooksByUserListView, LoginRequiredMixin, handle_no_permission,
         LoanedBooksByUser_get_queryset;
       destruct (user request) as [|uid perms]; cbn [is_authenticated]; [done|];
       change (respond _ s)
         with (respond
                 (pg ← paginate_queryset
                         (order_by_due_back (nulls_first (db s))
                            (filter_status "o"
                               (filter_borrower uid (BookInstance_table (db s)))))
                         paginate_by request;
                  mret (Render "catalog/bookinstance_list_borrowed_user.html"
                          (CtxBookInstanceList pg))) (s1 MBookInstance));
       by rewrite paginated_view_state.
  1-3: unfold AllBorrowedBooksByUserListView, PermissionRequiredMixin, handle_no_permission;
       destruct (has_perm _ _); [|by destruct (is_authenticated _)];
       change (respond _ s)
         with (respond
                 (pg ← paginate_queryset
                         (order_by_due_back (nulls_first (db s))
                            (filter_status "o" (BookInstance_table (db s))))
                         paginate_by request;
                  mret (Render "catalog/all_bookinstance_list_borrowed_user.html"
                          (CtxBookInstanceList pg))) (s1 MBookInstance));
       by rewrite paginated_view_state.
  1-3: unfold respond_object, BookDetailView, get_Book_or_404; run_M;
       by destruct (filter _ _) as [|b [|b' rest]].
  1-3: unfold respond_object, AuthorDetailView, get_Author_or_404; run_M;
       by destruct (filter _ _) as [|b [|b' rest]].
Qed.

(** ** The home page *)

Lemma append_nil (b : string) : "" +:+ b = b.
Proof. reflexivity. Qed.







(** X15: the home page writes nothing but its counter: the store and the clock are
    as they were, and so is every other key of the session. *)
Theorem index_writes_only_its_counter (request : Request) (s : State) :
  db (snd (respond (index request) s)) = db s ∧
  clock (snd (respond (index request) s)) = clock s ∧
  ∀ key, key ≠ "num_visits" →
    session (snd (respond (index request) s)) !! key = session s !! key.
Proof.
  rewrite index_respond. cbn [snd db clock session]. repeat split.
  intros key Hkey. by rewrite lookup_insert_ne.
Qed.

(** X16: Over an empty store the home page reports zero for all six counts. *)
Theorem index_empty_store (request : Request) (s : State) :
  Book_table (db s) = [] → BookInstance_table (db s) = [] →
  Author_table (db s) = [] → Genre_table (db s) = [] →
  fst (respond (index request) s) =
    Render "index.html"
      (CtxIndex (mkIndexContext 0 0 0 0 0 0 (default 0 (session s !! "num_visits")))).
Proof.
  intros Hb Hi Ha Hg. rewrite index_respond. cbn [fst]. by rewrite Hb, Hi, Ha, Hg.
Qed.

Lemma index_empty_store_witness :
  fst (respond (index anonymous_get) empty_state) =
    Render "index.html" (CtxIndex (mkIndexContext 0 0 0 0 0 0 0)).
Proof. apply (index_empty_store anonymous_get empty_state); reflexivity. Defined.





(** ** Rows and keys *)

Lemma filter_key_unique {A} (key : A → Pk) (rows : list A) (x : A) :
  NoDup (key <$> rows) → x ∈ rows → filter (λ row, key row = key x) rows = [x].
Proof.
  induction rows as [|r rows IH]; intros Hnd Hin; [by apply elem_of_nil in Hin|].
  rewrite fmap_cons in Hnd. apply NoDup_cons in Hnd as [Hr Hnd].
  rewrite filter_cons. apply elem_of_cons in Hin as [->|Hin].
  - rewrite decide_True by done. f_equal.
    apply elem_of_nil_inv. intros row [Heq Hrow]%list_elem_of_filter.
    apply Hr. rewrite <- Heq. by apply list_elem_of_fmap_2.
  - rewrite decide_False; [by apply IH|].
    intros Heq. apply Hr. rewrite Heq. by apply list_elem_of_fmap_2.
Qed.

Lemma filter_key_missing {A} (key : A → Pk) (rows : list A) (pk : Pk) :
  (∀ row, row ∈ rows → key row ≠ pk) → filter (λ row, key row = pk) rows = [].
Proof.
  intros Hnone. apply elem_of_nil_inv. intros row [Heq Hrow]%list_elem_of_filter.
  by apply (Hnone row).
Qed.

Lemma key_inj {A} (key : A → Pk) (rows : list A) (x y : A) :
  NoDup (key <$> rows) → x ∈ rows → y ∈ rows → key x = key y → x = y.
Proof.
  intros Hnd Hx Hy Heq.
  pose proof (filter_key_unique key rows y Hnd Hy) as Hf.
  assert (x ∈ filter (λ row, key row = key y) rows) as Hxf
    by (by apply list_elem_of_filter).
  rewrite Hf in Hxf. by apply list_elem_of_singleton in Hxf.
Qed.

(** Replacing the row of a key by a row of the same key keeps the keys. *)
Lemma replace_keeps_keys {A} (key : A → Pk) (rows : list A) (obj : A) :
  key <$> ((λ row, if decide (key row = key obj) then obj else row) <$> rows) = key <$> rows.
Proof.
  rewrite <- list_fmap_compose. apply list_fmap_ext. intros i row _. cbn. by case_decide.
Qed.

(** ** The renewal workflow, further *)

(** X17: a renewal request for a key no BookInstance has is answered with "not
    found" whatever its method and whatever it submits: the form is not
    consulted and the store is only read. *)
Theorem renew_missing_is_not_found (clean : Date → QueryDict → option Date)
    (request : Request) (pk : Pk) (s : State) :
  has_perm (user request) "catalog.can_mark_returned" = true →
  (∀ bi, bi ∈ BookInstance_table (db s) → inst_pk bi ≠ pk) →
  respond (renew_book_librarian clean request pk) s =
    (NotFound, mkState (db s) (session s) (clock s) (queries s ++ [Select MBookInstance])).
Proof.
  intros Hperm Hnone.
  unfold renew_book_librarian, permission_required, renew_book_librarian_view,
    get_BookInstance_or_404.
  rewrite Hperm. run_M. by rewrite (filter_key_missing inst_pk _ pk Hnone).
Qed.

Lemma renew_missing_is_not_found_witness :
  has_perm (user librarian_post) "catalog.can_mark_returned" = true ∧
  fst (respond (renew_book_librarian sample_RenewBookForm_clean librarian_post 99) loans_state)
    = NotFound.
Proof.
  split; [reflexivity|].
  rewrite (renew_missing_is_not_found sample_RenewBookForm_clean librarian_post 99 loans_state);
    [reflexivity|reflexivity|].
  intros bi Hbi. cbn in Hbi.
  repeat (apply elem_of_cons in Hbi as [->|Hbi]; [by vm_compute|]).
  by apply elem_of_nil in Hbi.
Defined.

(** X18: of two successful renewals of the same BookInstance the later one wins:
    the store after both is the store after the second alone. *)
Theorem renew_last_write_wins (clean : Date → QueryDict → option Date)
    (request1 request2 : Request) (s : State) (bi : BookInstance) (d1 d2 : Date) :
  has_perm (user request1) "catalog.can_mark_returned" = true →
  has_perm (user request2) "catalog.can_mark_returned" = true →
  method request1 = "POST" → method request2 = "POST" →
  NoDup (inst_pk <$> BookInstance_table (db s)) →
  bi ∈ BookInstance_table (db s) →
  clean (clock s) (POST request1) = Some d1 →
  clean (clock s) (POST request2) = Some d2 →
  db (snd (respond (renew_book_librarian clean request2 (inst_pk bi))
             (snd (respond (renew_book_librarian clean request1 (inst_pk bi)) s))))
  = db (snd (respond (renew_book_librarian clean request2 (inst_pk bi)) s)).
Proof.
  intros Hp1 Hp2 Hm1 Hm2 Hnd Hin Hc1 Hc2.
  rewrite (renew_post_valid clean request1 s bi d1) by done.
  rewrite (renew_post_valid clean request2 s bi d2) by done.
  cbn [snd].
  set (s1 := mkState _ _ _ _).
  pose proof (renew_post_valid clean request2 s1 (set_due_back (Some d1) bi) d2) as H.
  cbn [inst_pk set_due_back] in H. rewrite H; clear H; try done.
  - subst s1. cbn [snd db session clock BookInstance_table set_BookInstance_table Book_table
                   Author_table Genre_table nulls_first].
    unfold set_BookInstance_table. cbn [Book_table Author_table Genre_table nulls_first].
    f_equal. rewrite <- list_fmap_compose. apply list_fmap_ext. intros i row _. cbn.
    destruct (decide (inst_pk row = inst_pk bi)) as [Hpk|Hpk].
    + by rewrite decide_True.
    + by rewrite decide_False.
  - subst s1. cbn [db BookInstance_table set_BookInstance_table].
    by rewrite (replace_keeps_keys inst_pk _ (set_due_back (Some d1) bi)).
  - subst s1. cbn [db BookInstance_table set_BookInstance_table].
    apply list_elem_of_fmap. exists bi. split; [|done]. by rewrite decide_True.
Qed.

Lemma renew_last_write_wins_witness :
  db (snd (respond (renew_book_librarian sample_RenewBookForm_clean librarian_post 1)
             (snd (respond (renew_book_librarian sample_RenewBookForm_clean librarian_post 1)
                     loans_state))))
  = db (snd (respond (renew_book_librarian sample_RenewBookForm_clean librarian_post 1)
               loans_state)).
Proof.
  apply (renew_last_write_wins sample_RenewBookForm_clean librarian_post librarian_post
           loans_state (mkBookInstance 1 (Some 1) "o" (Some 738020) (Some 7)) 738003 738003
           eq_refl eq_refl eq_refl eq_refl loans_store_keys_unique loans_store_first_copy
           eq_refl eq_refl).
Defined.

Lemma length_filter_status_fmap (code : string) (f : BookInstance → BookInstance)
    (rows : list BookInstance) :
  (∀ row, row ∈ rows → status (f row) = status row) →
  length (filter_status code (f <$> rows)) = length (filter_status code rows).
Proof.
  unfold filter_status. induction rows as [|r rows IH]; intros Hf; [done|].
  rewrite fmap_cons, !filter_cons, (Hf r) by left.
  case_decide; cbn [length]; rewrite IH; try done; intros row Hrow; apply Hf; by right.
Qed.

(** X19: a renewed loan stays on the lists with its new date: after a successful
    renewal of a BookInstance that is on loan, "all loans" holds the target
    with the cleaned date as its due-back date, and has as many rows as it had
    before. *)
Theorem renewed_loan_is_listed (clean : Date → QueryDict → option Date) (request : Request)
    (s : State) (bi : BookInstance) (d : Date) :
  has_perm (user request) "catalog.can_mark_returned" = true →
  method request = "POST" →
  NoDup (inst_pk <$> BookInstance_table (db s)) →
  bi ∈ BookInstance_table (db s) →
  status bi = "o" →
  clean (clock s) (POST request) = Some d →
  ∃ before after,
    fst (AllBorrowedBooksByUser_get_queryset s) = inr before ∧
    fst (AllBorrowedBooksByUser_get_queryset
           (snd (respond (renew_book_librarian clean request (inst_pk bi)) s))) = inr after ∧
    set_due_back (Some d) bi ∈ after ∧
    length after = length before.
Proof.
  intros Hperm Hpost Hnd Hin Ho Hclean.
  rewrite (renew_post_valid clean request s bi d) by done.
  unfold AllBorrowedBooksByUser_get_queryset. run_M.
  cbn [BookInstance_table set_BookInstance_table nulls_first].
  do 2 eexists. split; [reflexivity|]. split; [reflexivity|]. split.
  - rewrite order_by_due_back_perm. unfold filter_status.
    apply list_elem_of_filter. split; [done|].
    apply list_elem_of_fmap. exists bi. split; [|done]. by rewrite decide_True.
  - rewrite !(Permutation_length (order_by_due_back_perm _ _)).
    apply length_filter_status_fmap. intros row Hrow.
    case_decide as Hpk; [|done].
    by rewrite (key_inj inst_pk _ row bi Hnd Hrow Hin Hpk).
Qed.

Lemma renewed_loan_is_listed_witness :
  ∃ before after,
    fst (AllBorrowedBooksByUser_get_queryset loans_state) = inr before ∧
    fst (AllBorrowedBooksByUser_get_queryset
           (snd (respond (renew_book_librarian sample_RenewBookForm_clean librarian_post 1)
                   loans_state))) = inr after ∧
    mkBookInstance 1 (Some 1) "o" (Some 738003) (Some 7) ∈ after ∧
    length after = length before.
Proof.
  apply (renewed_loan_is_listed sample_RenewBookForm_clean librarian_post loans_state
           (mkBookInstance 1 (Some 1) "o" (Some 738020) (Some 7)) 738003
           eq_refl eq_refl loans_store_keys_unique loans_store_first_copy eq_refl eq_refl).
Defined.

(** ** Creating and updating a Book, further *)

Lemma foldr_max_ge (keys : list Z) (k : Z) : k ∈ keys → k <= foldr Z.max 0 keys.
Proof.
  induction keys as [|x keys IH]; intros Hin; [by apply elem_of_nil in Hin|].
  cbn [foldr]. apply elem_of_cons in Hin as [->|Hin]; [lia|].
  specialize (IH Hin). lia.
Qed.

Lemma next_pk_fresh (rows : list Book) : next_pk rows ∉ book_pk <$> rows.
Proof. intros Hin. apply foldr_max_ge in Hin. unfold next_pk in Hin. lia. Qed.

(** X20: a valid submission to the Book create view by a user who may add Books
    adds one row at the end of the table of Book, under a key no row had, with
    the cleaned values; the rows that were there are as they were, the other
    tables and the session too, and keys that were unique stay unique. The
    response is a redirect to the new Book. *)
Theorem book_create_appends (clean : list BookField → QueryDict → option Book)
    (request : Request) (s : State) (cleaned : Book) :
  has_perm (user request) "catalog.add_book" = true →
  clean (form_fields BookCreate_fields) (POST request) = Some cleaned →
  let pk := next_pk (Book_table (db s)) in
  respond (BookCreate_post clean request) s =
    (RedirectToObject MBook pk,
     mkState
       (set_Book_table
          (Book_table (db s) ++
             [mkBook pk (title cleaned) (author cleaned) (summary cleaned) (genre cleaned)
                (language cleaned)])
          (db s))
       (session s) (clock s) (queries s ++ [Insert MBook pk])) ∧
  (pk ∉ book_pk <$> Book_table (db s)) ∧
  (NoDup (book_pk <$> Book_table (db s)) →
   NoDup (book_pk <$> Book_table (db (snd (respond (BookCreate_post clean request) s))))).
Proof.
  intros Hperm Hclean pk.
  assert (respond (BookCreate_post clean request) s =
    (RedirectToObject MBook pk,
     mkState
       (set_Book_table
          (Book_table (db s) ++
             [mkBook pk (title cleaned) (author cleaned) (summary cleaned) (genre cleaned)
                (language cleaned)])
          (db s))
       (session s) (clock s) (queries s ++ [Insert MBook pk]))) as Hrun.
  { unfold BookCreate_post, PermissionRequiredMixin. rewrite Hperm, Hclean.
    unfold Book_insert. run_M. by rewrite BookCreate_construct_instance. }
  split; [done|]. split; [apply next_pk_fresh|].
  intros Hnd. rewrite Hrun. cbn [snd db Book_table set_Book_table].
  rewrite fmap_app. apply NoDup_app. split; [done|]. split.
  - intros k Hk Hk'. apply list_elem_of_singleton in Hk'. subst k.
    by apply (next_pk_fresh (Book_table (db s))).
  - apply NoDup_singleton.
Qed.

Lemma cataloguer_may_add : has_perm (user cataloguer_post) "catalog.add_book" = true.
Proof. reflexivity. Qed.

Lemma book_create_appends_witness :
  fst (respond (BookCreate_post sample_BookForm_clean cataloguer_post) loans_state)
    = RedirectToObject MBook 2.
Proof.
  pose proof (book_create_appends sample_BookForm_clean cataloguer_post loans_state
                (mkBook 0 "Dune" (Some 1) "Sand" [1] None) cataloguer_may_add eq_refl)
    as (H & _).
  exact (f_equal fst H).
Defined.

(** X21: a valid submission to the Book update view for an existing Book by a user
    who may change Books writes the cleaned summary, genres and language to
    that Book and to no other row; every row keeps its place, and the other
    tables and the session are as they were. The response is a redirect to the
    Book. *)
Theorem book_update_effect (clean : list BookField → QueryDict → option Book)
    (request : Request) (s : State) (b cleaned : Book) :
  has_perm (user request) "catalog.change_book" = true →
  NoDup (book_pk <$> Book_table (db s)) →
  b ∈ Book_table (db s) →
  clean (form_fields BookUpdate_fields) (POST request) = Some cleaned →
  let s' := snd (respond (BookUpdate_post clean request (book_pk b)) s) in
  fst (respond (BookUpdate_post clean request (book_pk b)) s) = RedirectToObject MBook (book_pk b) ∧
  BookInstance_table (db s') = BookInstance_table (db s) ∧
  Author_table (db s') = Author_table (db s) ∧
  Genre_table (db s') = Genre_table (db s) ∧
  session s' = session s ∧
  Book_table (db s') =
    (λ row, if decide (row = b)
            then mkBook (book_pk b) (title b) (author b) (summary cleaned) (genre cleaned)
                   (language cleaned)
            else row) <$> Book_table (db s).
Proof.
  intros Hperm Hnd Hin Hclean s'. subst s'.
  unfold BookUpdate_post, PermissionRequiredMixin, get_Book_or_404, Book_save.
  rewrite Hperm. run_M. rewrite (filter_key_unique book_pk _ b Hnd Hin), Hclean.
  cbn [fst snd db session Book_table BookInstance_table Author_table Genre_table
       set_Book_table].
  repeat (split; [done|]).
  apply list_fmap_ext. intros i row Hrow.
  rewrite BookUpdate_construct_instance. cbn [book_pk].
  destruct (decide (row = b)) as [->|Hne]; [by rewrite decide_True|].
  rewrite decide_False; [done|]. intros Hpk. apply Hne.
  apply (key_inj book_pk (Book_table (db s))); [done| |done..].
  by eapply list_elem_of_lookup_2.
Qed.

Lemma loans_store_book_keys_unique : NoDup (book_pk <$> Book_table (db loans_state)).
Proof. apply (bool_decide_unpack _). by vm_compute. Qed.

Lemma loans_store_first_book :
  mkBook 1 "Odes" (Some 1) "Poems" [1] None ∈ Book_table (db loans_state).
Proof. apply list_elem_of_here. Qed.

Lemma cataloguer_may_change : has_perm (user cataloguer_post) "catalog.change_book" = true.
Proof. reflexivity. Qed.

Lemma book_update_effect_witness :
  Book_table (db (snd (respond (BookUpdate_post sample_BookForm_clean cataloguer_post 1)
                         loans_state)))
  = [mkBook 1 "Odes" (Some 1) "Sand" [1] None].
Proof.
  pose proof (book_update_effect sample_BookForm_clean cataloguer_post loans_state
                (mkBook 1 "Odes" (Some 1) "Poems" [1] None)
                (mkBook 0 "Dune" (Some 1) "Sand" [1] None)
                cataloguer_may_change loans_store_book_keys_unique loans_store_first_book
                eq_refl) as (_ & _ & _ & _ & _ & H).
  exact H.
Defined.

(** X22: what the Book edit views refuse leaves the store, the session and the
    clock as they were: an invalid submission to the create view by a user who
    may add Books renders the form again; for a user who may change Books, an
    update of a key no Book has is "not found" whatever is submitted, before
    the form is looked at, and an invalid submission to the update view of an
    existing Book renders the form again. Each part asks for the permission of
    its own view only. *)
Theorem book_edit_refusals (clean : list BookField → QueryDict → option Book)
    (request : Request) (pk : Pk) (s : State) :
  (has_perm (user request) "catalog.add_book" = true →
   clean (form_fields BookCreate_fields) (POST request) = None →
   fst (respond (BookCreate_post clean request) s)
     = Render "catalog/book_form.html" (CtxBookForm (POST request)) ∧
   same_data s (snd (respond (BookCreate_post clean request) s))) ∧
  (has_perm (user request) "catalog.change_book" = true →
   (∀ b, b ∈ Book_table (db s) → book_pk b ≠ pk) →
   respond (BookUpdate_post clean request pk) s
     = (NotFound, mkState (db s) (session s) (clock s) (queries s ++ [Select MBook]))) ∧
  (has_perm (user request) "catalog.change_book" = true →
   clean (form_fields BookUpdate_fields) (POST request) = None →
   NoDup (book_pk <$> Book_table (db s)) →
   (∃ b, b ∈ Book_table (db s) ∧ book_pk b = pk) →
   fst (respond (BookUpdate_post clean request pk) s)
     = Render "catalog/book_form.html" (CtxBookForm (POST request)) ∧
   same_data s (snd (respond (BookUpdate_post clean request pk) s))).
Proof.
  unfold BookCreate_post, BookUpdate_post, PermissionRequiredMixin, get_Book_or_404, same_data.
  split; [|split].
  - intros Hadd Hclean. by rewrite Hadd, Hclean.
  - intros Hchange Hnone. rewrite Hchange. run_M.
    by rewrite (filter_key_missing book_pk _ pk Hnone).
  - intros Hchange Hclean Hnd (b & Hin & <-). rewrite Hchange. run_M.
    by rewrite (filter_key_unique book_pk _ b Hnd Hin), Hclean.
Qed.

Lemma loans_store_no_book_99 : ∀ b, b ∈ Book_table (db loans_state) → book_pk b ≠ 99.
Proof. intros b Hb. apply list_elem_of_singleton in Hb as ->. by vm_compute. Qed.

Lemma book_edit_refusals_witness :
  (has_perm (user adder_post) "catalog.add_book" = true ∧
   has_perm (user adder_post) "catalog.change_book" = false ∧
   fst (respond (BookCreate_post strict_BookForm_clean adder_post) loans_state)
     = Render "catalog/book_form.html" (CtxBookForm [])) ∧
  (has_perm (user cataloguer_post) "catalog.change_book" = true ∧
   fst (respond (BookUpdate_post sample_BookForm_clean cataloguer_post 99) loans_state)
     = NotFound) ∧
  (has_perm (user cataloguer_post) "catalog.change_book" = true ∧
   fst (respond (BookUpdate_post strict_BookForm_clean cataloguer_post 1) loans_state)
     = Render "catalog/book_form.html" (CtxBookForm (POST cataloguer_post))).
Proof.
  split; [|split].
  - do 2 (split; [reflexivity|]).
    destruct (book_edit_refusals strict_BookForm_clean adder_post 1 loans_state) as (H & _).
    exact (proj1 (H eq_refl eq_refl)).
  - split; [reflexivity|].
    destruct (book_edit_refusals sample_BookForm_clean cataloguer_post 99 loans_state)
      as (_ & H & _).
    exact (f_equal fst (H eq_refl loans_store_no_book_99)).
  - split; [reflexivity|].
    destruct (book_edit_refusals strict_BookForm_clean cataloguer_post 1 loans_state)
      as (_ & _ & H).
    refine (proj1 (H eq_refl eq_refl loans_store_book_keys_unique _)).
    exists (mkBook 1 "Odes" (Some 1) "Poems" [1] None).
    split; [apply list_elem_of_here|reflexivity].
Defined.

(** ** Detail views *)

(** X23: a detail view of an existing object renders that object: the Book
    view for every Book of a table of Book with unique keys, the Author view
    for every Author of a table of Author with unique keys, whatever the other
    tables hold. *)
Theorem detail_views_found (request : Request) (s : State) :
  (∀ b, NoDup (book_pk <$> Book_table (db s)) → b ∈ Book_table (db s) →
        fst (respond_object (BookDetailView request (book_pk b)) s)
          = RenderObject "catalog/book_detail.html" (CtxBook b)) ∧
  (∀ a, NoDup (author_pk <$> Author_table (db s)) → a ∈ Author_table (db s) →
        fst (respond_object (AuthorDetailView request (author_pk a)) s)
          = RenderObject "catalog/author_detail.html" (CtxAuthor a)).
Proof.
  unfold respond_object, BookDetailView, AuthorDetailView, get_Book_or_404, get_Author_or_404.
  run_M. split.
  - intros b Hnd Hb. by rewrite (filter_key_unique book_pk _ b Hnd Hb).
  - intros a Hnd Ha. by rewrite (filter_key_unique author_pk _ a Hnd Ha).
Qed.

Lemma loans_store_author_keys_unique : NoDup (author_pk <$> Author_table (db loans_state)).
Proof. apply (bool_decide_unpack _). by vm_compute. Qed.

Lemma loans_store_first_author :
  mkAuthor 1 "John" "Keats" None None ∈ Author_table (db loans_state).
Proof. apply list_elem_of_here. Qed.

Lemma poem_store_book_keys_unique : NoDup (book_pk <$> Book_table (db poem_state)).
Proof. apply (bool_decide_unpack _). by vm_compute. Qed.

Lemma poem_store_first_book :
  mkBook 1 "Odes" None "" [1; 2] None ∈ Book_table (db poem_state).
Proof. apply list_elem_of_here. Qed.

Lemma detail_views_found_witness :
  Author_table (db poem_state) = [] ∧
  fst (respond_object (BookDetailView anonymous_get 1) poem_state)
    = RenderObject "catalog/book_detail.html" (CtxBook (mkBook 1 "Odes" None "" [1; 2] None)) ∧
  fst (respond_object (AuthorDetailView anonymous_get 1) loans_state)
    = RenderObject "catalog/author_detail.html" (CtxAuthor (mkAuthor 1 "John" "Keats" None None)).
Proof.
  split; [reflexivity|]. split.
  - destruct (detail_views_found anonymous_get poem_state) as [H _].
    exact (H (mkBook 1 "Odes" None "" [1; 2] None)
             poem_store_book_keys_unique poem_store_first_book).
  - destruct (detail_views_found anonymous_get loans_state) as [_ H].
    exact (H (mkAuthor 1 "John" "Keats" None None)
             loans_store_author_keys_unique loans_store_first_author).
Defined.

(** X24: a detail view of a key no object has answers "not found". *)
Theorem detail_views_not_found (request : Request) (pk : Pk) (s : State) :
  ((∀ b, b ∈ Book_table (db s) → book_pk b ≠ pk) →
   fst (respond_object (BookDetailView request pk) s) = Plain NotFound) ∧
  ((∀ a, a ∈ Author_table (db s) → author_pk a ≠ pk) →
   fst (respond_object (AuthorDetailView request pk) s) = Plain NotFound).
Proof.
  unfold respond_object, BookDetailView, AuthorDetailView, get_Book_or_404, get_Author_or_404.
  run_M. split; intros Hnone.
  - by rewrite (filter_key_missing book_pk _ pk Hnone).
  - by rewrite (filter_key_missing author_pk _ pk Hnone).
Qed.

Lemma loans_store_no_author_99 : ∀ a, a ∈ Author_table (db loans_state) → author_pk a ≠ 99.
Proof. intros a Ha. apply list_elem_of_singleton in Ha as ->. by vm_compute. Qed.

Lemma shelf_store_no_book_26 : ∀ b, b ∈ Book_table (db shelf_state) → book_pk b ≠ 26.
Proof.
  intros b Hb. cbn in Hb.
  repeat (apply elem_of_cons in Hb as [->|Hb]; [by vm_compute|]).
  by apply elem_of_nil in Hb.
Qed.

Lemma detail_views_not_found_witness :
  mkBook 1 "Odes" (Some 1) "Poems" [1] None ∈ Book_table (db loans_state) ∧
  fst (respond_object (BookDetailView anonymous_get 99) loans_state) = Plain NotFound ∧
  fst (respond_object (BookDetailView anonymous_get 26) shelf_state) = Plain NotFound ∧
  fst (respond_object (AuthorDetailView anonymous_get 99) loans_state) = Plain NotFound.
Proof.
  split; [apply list_elem_of_here|]. split; [|split].
  - destruct (detail_views_not_found anonymous_get 99 loans_state) as [H _].
    exact (H loans_store_no_book_99).
  - destruct (detail_views_not_found anonymous_get 26 shelf_state) as [H _].
    exact (H shelf_store_no_book_26).
  - destruct (detail_views_not_found anonymous_get 99 loans_state) as [_ H].
    exact (H loans_store_no_author_99).
Defined.

(** ** Creating and updating an Author *)

Lemma Author_construct_instance_all (fields : AuthorFieldsOption) (cleaned instance : Author) :
  fields = AuthorCreate_fields ∨ fields = AuthorUpdate_fields →
  Author_construct_instance (Author_form_fields fields) cleaned instance =
    mkAuthor (author_pk instance) (first_name cleaned) (last_name cleaned)
      (date_of_birth cleaned) (date_of_death cleaned).
Proof. by intros [->| ->]. Qed.

Lemma Author_next_pk_fresh (rows : list Author) : Author_next_pk rows ∉ author_pk <$> rows.
Proof. intros Hin. apply foldr_max_ge in Hin. unfold Author_next_pk in Hin. lia. Qed.

(** X25: the Author create view shows, to a user who may add Authors, an unbound
    form whose only initial value is the date of death '12/10/2016', and it
    reads and writes nothing; a valid submission adds one Author at the end of
    the table, under a key no row had, with the cleaned values of all four
    fields: the date of death stored is the one submitted, not the initial
    one. *)
Theorem author_create (clean : list AuthorField → QueryDict → option Author)
    (request : Request) (s : State) (cleaned : Author) :
  has_perm (user request) "catalog.add_author" = true →
  clean (Author_form_fields AuthorCreate_fields) (POST request) = Some cleaned →
  let pk := Author_next_pk (Author_table (db s)) in
  respond_object (AuthorCreate_get request) s =
    (RenderObject "catalog/author_form.html"
       (CtxAuthorForm None [(FDateOfDeath, "12/10/2016")] None), s) ∧
  respond_object (AuthorCreate_post clean request) s =
    (Plain (RedirectToObject MAuthor pk),
     mkState
       (set_Author_table
          (Author_table (db s) ++
             [mkAuthor pk (first_name cleaned) (last_name cleaned) (date_of_birth cleaned)
                (date_of_death cleaned)])
          (db s))
       (session s) (clock s) (queries s ++ [Insert MAuthor pk])) ∧
  (pk ∉ author_pk <$> Author_table (db s)).
Proof.
  intros Hperm Hclean pk.
  unfold respond_object, AuthorCreate_get, AuthorCreate_post, PermissionRequiredMixin_object.
  rewrite Hperm, Hclean. unfold Author_insert. run_M.
  rewrite (Author_construct_instance_all AuthorCreate_fields) by by left.
  split; [done|]. split; [done|]. apply Author_next_pk_fresh.
Qed.

Lemma curator_may_add : has_perm (user curator_post) "catalog.add_author" = true.
Proof. reflexivity. Qed.

Lemma author_create_witness :
  fst (respond_object (AuthorCreate_post sample_AuthorForm_clean curator_post) loans_state)
    = Plain (RedirectToObject MAuthor 2).
Proof.
  pose proof (author_create sample_AuthorForm_clean curator_post loans_state
                (mkAuthor 0 "Jane" "Austen" (Some 648000) None) curator_may_add eq_refl)
    as (_ & H & _).
  exact (f_equal fst H).
Defined.

(** X26: a valid submission to the Author update view for an existing Author by a
    user who may change Authors writes the cleaned values of all four fields
    to that Author and to no other row; the Author keeps its key, every row
    keeps its place, and the other tables and the session are as they were.
    The form the view shows for the Author carries no initial value of the
    view's own. *)
Theorem author_update_effect (clean : list AuthorField → QueryDict → option Author)
    (request : Request) (s : State) (a cleaned : Author) :
  has_perm (user request) "catalog.change_author" = true →
  NoDup (author_pk <$> Author_table (db s)) →
  a ∈ Author_table (db s) →
  clean (Author_form_fields AuthorUpdate_fields) (POST request) = Some cleaned →
  let s' := snd (respond_object (AuthorUpdate_post clean request (author_pk a)) s) in
  fst (respond_object (AuthorUpdate_get request (author_pk a)) s)
    = RenderObject "catalog/author_form.html" (CtxAuthorForm (Some a) [] None) ∧
  fst (respond_object (AuthorUpdate_post clean request (author_pk a)) s)
    = Plain (RedirectToObject MAuthor (author_pk a)) ∧
  Book_table (db s') = Book_table (db s) ∧
  BookInstance_table (db s') = BookInstance_table (db s) ∧
  Genre_table (db s') = Genre_table (db s) ∧
  session s' = session s ∧
  Author_table (db s') =
    (λ row, if decide (row = a)
            then mkAuthor (author_pk a) (first_name cleaned) (last_name cleaned)
                   (date_of_birth cleaned) (date_of_death cleaned)
            else row) <$> Author_table (db s).
Proof.
  intros Hperm Hnd Hin Hclean s'. subst s'.
  unfold respond_object, AuthorUpdate_get, AuthorUpdate_post, PermissionRequiredMixin_object,
    get_Author_or_404, Author_save.
  rewrite Hperm. run_M. rewrite (filter_key_unique author_pk _ a Hnd Hin), Hclean.
  cbn [fst snd db session Book_table BookInstance_table Author_table Genre_table
       set_Author_table].
  repeat (split; [done|]).
  apply list_fmap_ext. intros i row Hrow.
  rewrite (Author_construct_instance_all AuthorUpdate_fields) by by right.
  cbn [author_pk].
  destruct (decide (row = a)) as [->|Hne]; [by rewrite decide_True|].
  rewrite decide_False; [done|]. intros Hpk. apply Hne.
  apply (key_inj author_pk (Author_table (db s))); [done| |done..].
  by eapply list_elem_of_lookup_2.
Qed.

Lemma curator_may_change : has_perm (user curator_post) "catalog.change_author" = true.
Proof. reflexivity. Qed.

Lemma author_update_effect_witness :
  Author_table (db (snd (respond_object
                           (AuthorUpdate_post sample_AuthorForm_clean curator_post 1)
                           loans_state)))
  = [mkAuthor 1 "Jane" "Austen" (Some 648000) None].
Proof.
  pose proof (author_update_effect sample_AuthorForm_clean curator_post loans_state
                (mkAuthor 1 "John" "Keats" None None)
                (mkAuthor 0 "Jane" "Austen" (Some 648000) None)
                curator_may_change loans_store_author_keys_unique loans_store_first_author
                eq_refl) as (_ & _ & _ & _ & _ & _ & H).
  exact H.
Defined.


